(** * Unciv turn notifier: the turn-monitoring and reminder engine

    A shallow embedding of [unciv_notifier.py].  The module-level globals of
    the script form one record ([World], which also carries the state file on
    disk so that a process restart can be expressed), every coroutine becomes
    a function from the world and the answers of its environment (network,
    clock, chat transport, disk) to a new world and the list of messages it
    emitted, and a Python exception is the [Raise] case of [Result].

    Conventions
    - [datetime] values are integers, microseconds (the resolution of
      [datetime]); a [timedelta] is a number of microseconds.
    - [time.time()] is a rational number of seconds; the rounding of float
      subtraction is not modelled.
    - user-visible texts are kept as the translation key with its arguments
      ([Message]); the translation table itself is outside the engine.
    - the game JSON is decoded into [GameJson]: each field the script reads
      is optional and has the type the game server publishes. *)

From Stdlib Require Import ZArith QArith Lqa Lia Ascii String.
From stdpp Require Import base option list strings gmap.

Local Open Scope Z_scope.

(* ------------------------------------------------------------------ *)
(** ** Exceptions and results *)

Inductive Exn :=
  | TimeoutError      (* asyncio.TimeoutError *)
  | ClientError       (* aiohttp.ClientError and its subclasses *)
  | JSONDecodeError   (* resp.json() on a body that is not JSON *)
  | ValueError        (* datetime.fromisoformat on a malformed string *)
  | AttributeError.   (* .get on a value that is not a dict *)

Inductive Result (A : Type) :=
  | Return (a : A)
  | Raise (e : Exn).
Arguments Return {A} a.
Arguments Raise {A} e.

Definition returns {A} (r : Result A) : bool :=
  match r with Return _ => true | Raise _ => false end.

(* ------------------------------------------------------------------ *)
(** ** Python helpers: truthiness, [str.upper], insertion-ordered dicts *)

Definition truthy_str (o : option string) : bool :=
  match o with
  | Some s => negb (String.eqb s "")
  | None => false
  end.

Definition truthy_int (o : option Z) : bool :=
  match o with
  | Some z => negb (z =? 0)
  | None => false
  end.

Definition upper_ascii (c : ascii) : ascii :=
  let n := nat_of_ascii c in
  if (97 <=? n)%nat && (n <=? 122)%nat then ascii_of_nat (n - 32) else c.

(** [str.upper] on the ASCII range. *)
Fixpoint upper (s : string) : string :=
  match s with
  | EmptyString => EmptyString
  | String c r => String (upper_ascii c) (upper r)
  end.

(** A [dict] whose iteration order matters ([PLAYER_LOGINS] is searched by
    value in insertion order): an association list with unique keys. *)
Section Dict.
Context {V : Type}.

Fixpoint dict_get (k : string) (d : list (string * V)) : option V :=
  match d with
  | [] => None
  | (k', v) :: r => if String.eqb k k' then Some v else dict_get k r
  end.

(** [d[k] = v]: an existing key keeps its position, a new one goes last. *)
Fixpoint dict_set (k : string) (v : V) (d : list (string * V)) : list (string * V) :=
  match d with
  | [] => [(k, v)]
  | (k', v') :: r =>
      if String.eqb k k' then (k', v) :: r else (k', v') :: dict_set k v r
  end.

Fixpoint dict_del (k : string) (d : list (string * V)) : list (string * V) :=
  match d with
  | [] => []
  | (k', v') :: r => if String.eqb k k' then r else (k', v') :: dict_del k r
  end.

Fixpoint has_key (k : string) (d : list (string * V)) : bool :=
  match d with
  | [] => false
  | (k', _) :: r => String.eqb k k' || has_key k r
  end.

(** No key occurs twice, as in every Python dict. *)
Fixpoint unique_keys (d : list (string * V)) : bool :=
  match d with
  | [] => true
  | (k, _) :: r => negb (has_key k r) && unique_keys r
  end.
End Dict.

(* ------------------------------------------------------------------ *)
(** ** Configuration constants *)

Definition timedelta (hours minutes : Z) : Z :=
  (hours * 60 + minutes) * 60 * 1000000.

Definition REMINDER_SCHEDULE : list Z :=
  [ timedelta 0 10; timedelta 0 30; timedelta 1 0 ].

Definition ERROR_DEBOUNCE_SECONDS : Q := 300%Q.

(** Values read from the process environment at start-up. *)
Record Config := {
  BASE_URL : string;
  env_MONITOR_INTERVAL_SECONDS : Z;
  env_BOT_LANGUAGE : string;
}.

(* ------------------------------------------------------------------ *)
(** ** Data *)

(** The value stored under a timestamp key of a reminder entry.  The
    entries are [Dict[str, Any]]: the script distinguishes a [str] (which it
    hands to [datetime.fromisoformat]) from anything else. *)
Inductive TimeField :=
  | TIso (t : Z)   (* a str in ISO format, the isoformat() of datetime t *)
  | TBadStr        (* a str that fromisoformat rejects *)
  | TNotStr.       (* key missing, None, or a value that is not a str *)

(** One entry of [PLAYER_NOTIFICATION_STATE]. *)
Record Reminder := {
  last_turn_change_time : TimeField;
  next_reminder_index : nat;
  last_reminded_time : TimeField;
}.

(** JSON values, as far as the state file needs them. *)
Inductive json :=
  | JNull
  | JInt (z : Z)
  | JStr (s : string)
  | JDict (kv : list (string * json)).

(** [STATE_FILE] on disk. *)
Inductive File :=
  | NoFile                (* os.path.exists is false *)
  | Garbage               (* exists, json.load raises *)
  | JsonFile (j : json).

(** The globals of the script, and the state file. *)
Record World := {
  GAME_ID : option string;
  CURRENT_GAME_URL : option string;
  LAST_TURN_PLAYER : option string;
  MAIN_CHAT_ID : option Z;
  NOTIFY_PAUSED : bool;
  AVAILABLE_NATIONS : list string;
  PLAYER_LOGINS : list (string * string);
  PLAYER_NOTIFICATION_STATE : gmap string Reminder;
  ETAG_CACHE : gmap string string;
  BOT_LANGUAGE : string;
  MONITOR_INTERVAL_SECONDS_DEFAULT : Z;
  last_error_time_by_chat : gmap Z Q;
  STATE_FILE : File;
}.

(** The globals as the module body initialises them; the file is whatever
    the previous process left. *)
Definition boot (cfg : Config) (file : File) : World :=
  {| GAME_ID := None; CURRENT_GAME_URL := None; LAST_TURN_PLAYER := None;
     MAIN_CHAT_ID := None; NOTIFY_PAUSED := false; AVAILABLE_NATIONS := [];
     PLAYER_LOGINS := []; PLAYER_NOTIFICATION_STATE := ∅; ETAG_CACHE := ∅;
     BOT_LANGUAGE := env_BOT_LANGUAGE cfg;
     MONITOR_INTERVAL_SECONDS_DEFAULT := env_MONITOR_INTERVAL_SECONDS cfg;
     last_error_time_by_chat := ∅;
     STATE_FILE := file |}.

(** Assignments to single globals. *)
Definition set_GAME_ID (v : option string) (w : World) : World :=
  {| GAME_ID := v; CURRENT_GAME_URL := CURRENT_GAME_URL w;
     LAST_TURN_PLAYER := LAST_TURN_PLAYER w; MAIN_CHAT_ID := MAIN_CHAT_ID w;
     NOTIFY_PAUSED := NOTIFY_PAUSED w; AVAILABLE_NATIONS := AVAILABLE_NATIONS w;
     PLAYER_LOGINS := PLAYER_LOGINS w;
     PLAYER_NOTIFICATION_STATE := PLAYER_NOTIFICATION_STATE w;
     ETAG_CACHE := ETAG_CACHE w; BOT_LANGUAGE := BOT_LANGUAGE w;
     MONITOR_INTERVAL_SECONDS_DEFAULT := MONITOR_INTERVAL_SECONDS_DEFAULT w;
     last_error_time_by_chat := last_error_time_by_chat w;
     STATE_FILE := STATE_FILE w |}.

Definition set_CURRENT_GAME_URL (v : option string) (w : World) : World :=
  {| GAME_ID := GAME_ID w; CURRENT_GAME_URL := v;
     LAST_TURN_PLAYER := LAST_TURN_PLAYER w; MAIN_CHAT_ID := MAIN_CHAT_ID w;
     NOTIFY_PAUSED := NOTIFY_PAUSED w; AVAILABLE_NATIONS := AVAILABLE_NATIONS w;
     PLAYER_LOGINS := PLAYER_LOGINS w;
     PLAYER_NOTIFICATION_STATE := PLAYER_NOTIFICATION_STATE w;
     ETAG_CACHE := ETAG_CACHE w; BOT_LANGUAGE := BOT_LANGUAGE w;
     MONITOR_INTERVAL_SECONDS_DEFAULT := MONITOR_INTERVAL_SECONDS_DEFAULT w;
     last_error_time_by_chat := last_error_time_by_chat w;
     STATE_FILE := STATE_FILE w |}.

Definition set_LAST_TURN_PLAYER (v : option string) (w : World) : World :=
  {| GAME_ID := GAME_ID w; CURRENT_GAME_URL := CURRENT_GAME_URL w;
     LAST_TURN_PLAYER := v; MAIN_CHAT_ID := MAIN_CHAT_ID w;
     NOTIFY_PAUSED := NOTIFY_PAUSED w; AVAILABLE_NATIONS := AVAILABLE_NATIONS w;
     PLAYER_LOGINS := PLAYER_LOGINS w;
     PLAYER_NOTIFICATION_STATE := PLAYER_NOTIFICATION_STATE w;
     ETAG_CACHE := ETAG_CACHE w; BOT_LANGUAGE := BOT_LANGUAGE w;
     MONITOR_INTERVAL_SECONDS_DEFAULT := MONITOR_INTERVAL_SECONDS_DEFAULT w;
     last_error_time_by_chat := last_error_time_by_chat w;
     STATE_FILE := STATE_FILE w |}.

Definition set_MAIN_CHAT_ID (v : option Z) (w : World) : World :=
  {| GAME_ID := GAME_ID w; CURRENT_GAME_URL := CURRENT_GAME_URL w;
     LAST_TURN_PLAYER := LAST_TURN_PLAYER w; MAIN_CHAT_ID := v;
     NOTIFY_PAUSED := NOTIFY_PAUSED w; AVAILABLE_NATIONS := AVAILABLE_NATIONS w;
     PLAYER_LOGINS := PLAYER_LOGINS w;
     PLAYER_NOTIFICATION_STATE := PLAYER_NOTIFICATION_STATE w;
     ETAG_CACHE := ETAG_CACHE w; BOT_LANGUAGE := BOT_LANGUAGE w;
     MONITOR_INTERVAL_SECONDS_DEFAULT := MONITOR_INTERVAL_SECONDS_DEFAULT w;
     last_error_time_by_chat := last_error_time_by_chat w;
     STATE_FILE := STATE_FILE w |}.

Definition set_NOTIFY_PAUSED (v : bool) (w : World) : World :=
  {| GAME_ID := GAME_ID w; CURRENT_GAME_URL := CURRENT_GAME_URL w;
     LAST_TURN_PLAYER := LAST_TURN_PLAYER w; MAIN_CHAT_ID := MAIN_CHAT_ID w;
     NOTIFY_PAUSED := v; AVAILABLE_NATIONS := AVAILABLE_NATIONS w;
     PLAYER_LOGINS := PLAYER_LOGINS w;
     PLAYER_NOTIFICATION_STATE := PLAYER_NOTIFICATION_STATE w;
     ETAG_CACHE := ETAG_CACHE w; BOT_LANGUAGE := BOT_LANGUAGE w;
     MONITOR_INTERVAL_SECONDS_DEFAULT := MONITOR_INTERVAL_SECONDS_DEFAULT w;
     last_error_time_by_chat := last_error_time_by_chat w;
     STATE_FILE := STATE_FILE w |}.

Definition set_AVAILABLE_NATIONS (v : list string) (w : World) : World :=
  {| GAME_ID := GAME_ID w; CURRENT_GAME_URL := CURRENT_GAME_URL w;
     LAST_TURN_PLAYER := LAST_TURN_PLAYER w; MAIN_CHAT_ID := MAIN_CHAT_ID w;
     NOTIFY_PAUSED := NOTIFY_PAUSED w; AVAILABLE_NATIONS := v;
     PLAYER_LOGINS := PLAYER_LOGINS w;
     PLAYER_NOTIFICATION_STATE := PLAYER_NOTIFICATION_STATE w;
     ETAG_CACHE := ETAG_CACHE w; BOT_LANGUAGE := BOT_LANGUAGE w;
     MONITOR_INTERVAL_SECONDS_DEFAULT := MONITOR_INTERVAL_SECONDS_DEFAULT w;
     last_error_time_by_chat := last_error_time_by_chat w;
     STATE_FILE := STATE_FILE w |}.

Definition set_PLAYER_LOGINS (v : list (string * string)) (w : World) : World :=
  {| GAME_ID := GAME_ID w; CURRENT_GAME_URL := CURRENT_GAME_URL w;
     LAST_TURN_PLAYER := LAST_TURN_PLAYER w; MAIN_CHAT_ID := MAIN_CHAT_ID w;
     NOTIFY_PAUSED := NOTIFY_PAUSED w; AVAILABLE_NATIONS := AVAILABLE_NATIONS w;
     PLAYER_LOGINS := v;
     PLAYER_NOTIFICATION_STATE := PLAYER_NOTIFICATION_STATE w;
     ETAG_CACHE := ETAG_CACHE w; BOT_LANGUAGE := BOT_LANGUAGE w;
     MONITOR_INTERVAL_SECONDS_DEFAULT := MONITOR_INTERVAL_SECONDS_DEFAULT w;
     last_error_time_by_chat := last_error_time_by_chat w;
     STATE_FILE := STATE_FILE w |}.

Definition set_PLAYER_NOTIFICATION_STATE (v : gmap string Reminder) (w : World) : World :=
  {| GAME_ID := GAME_ID w; CURRENT_GAME_URL := CURRENT_GAME_URL w;
     LAST_TURN_PLAYER := LAST_TURN_PLAYER w; MAIN_CHAT_ID := MAIN_CHAT_ID w;
     NOTIFY_PAUSED := NOTIFY_PAUSED w; AVAILABLE_NATIONS := AVAILABLE_NATIONS w;
     PLAYER_LOGINS := PLAYER_LOGINS w;
     PLAYER_NOTIFICATION_STATE := v;
     ETAG_CACHE := ETAG_CACHE w; BOT_LANGUAGE := BOT_LANGUAGE w;
     MONITOR_INTERVAL_SECONDS_DEFAULT := MONITOR_INTERVAL_SECONDS_DEFAULT w;
     last_error_time_by_chat := last_error_time_by_chat w;
     STATE_FILE := STATE_FILE w |}.

Definition set_ETAG_CACHE (v : gmap string string) (w : World) : World :=
  {| GAME_ID := GAME_ID w; CURRENT_GAME_URL := CURRENT_GAME_URL w;
     LAST_TURN_PLAYER := LAST_TURN_PLAYER w; MAIN_CHAT_ID := MAIN_CHAT_ID w;
     NOTIFY_PAUSED := NOTIFY_PAUSED w; AVAILABLE_NATIONS := AVAILABLE_NATIONS w;
     PLAYER_LOGINS := PLAYER_LOGINS w;
     PLAYER_NOTIFICATION_STATE := PLAYER_NOTIFICATION_STATE w;
     ETAG_CACHE := v; BOT_LANGUAGE := BOT_LANGUAGE w;
     MONITOR_INTERVAL_SECONDS_DEFAULT := MONITOR_INTERVAL_SECONDS_DEFAULT w;
     last_error_time_by_chat := last_error_time_by_chat w;
     STATE_FILE := STATE_FILE w |}.

Definition set_last_error_time_by_chat (v : gmap Z Q) (w : World) : World :=
  {| GAME_ID := GAME_ID w; CURRENT_GAME_URL := CURRENT_GAME_URL w;
     LAST_TURN_PLAYER := LAST_TURN_PLAYER w; MAIN_CHAT_ID := MAIN_CHAT_ID w;
     NOTIFY_PAUSED := NOTIFY_PAUSED w; AVAILABLE_NATIONS := AVAILABLE_NATIONS w;
     PLAYER_LOGINS := PLAYER_LOGINS w;
     PLAYER_NOTIFICATION_STATE := PLAYER_NOTIFICATION_STATE w;
     ETAG_CACHE := ETAG_CACHE w; BOT_LANGUAGE := BOT_LANGUAGE w;
     MONITOR_INTERVAL_SECONDS_DEFAULT := MONITOR_INTERVAL_SECONDS_DEFAULT w;
     last_error_time_by_chat := v;
     STATE_FILE := STATE_FILE w |}.

Definition set_STATE_FILE (v : File) (w : World) : World :=
  {| GAME_ID := GAME_ID w; CURRENT_GAME_URL := CURRENT_GAME_URL w;
     LAST_TURN_PLAYER := LAST_TURN_PLAYER w; MAIN_CHAT_ID := MAIN_CHAT_ID w;
     NOTIFY_PAUSED := NOTIFY_PAUSED w; AVAILABLE_NATIONS := AVAILABLE_NATIONS w;
     PLAYER_LOGINS := PLAYER_LOGINS w;
     PLAYER_NOTIFICATION_STATE := PLAYER_NOTIFICATION_STATE w;
     ETAG_CACHE := ETAG_CACHE w; BOT_LANGUAGE := BOT_LANGUAGE w;
     MONITOR_INTERVAL_SECONDS_DEFAULT := MONITOR_INTERVAL_SECONDS_DEFAULT w;
     last_error_time_by_chat := last_error_time_by_chat w;
     STATE_FILE := v |}.

(* ------------------------------------------------------------------ *)
(** ** The game JSON and the network *)

(** One element of ["civilizations"]: [c.get('civName')] and
    [c.get('playerType')], [None] when the key is missing or null. *)
Record Civ := {
  civName : option string;
  playerType : option string;
}.

(** The value of [data.get('civilizations', [])]. *)
Inductive Civs :=
  | civs_missing               (* no such key: the default [] *)
  | civs_list (l : list Civ)   (* a list of objects *)
  | civs_invalid.              (* anything the comprehension raises on *)

(** A JSON object as [monitor_game_state] and [set_game] read it. *)
Record GameJson := {
  not_modified : bool;                (* truth of data.get("_not_modified") *)
  currentPlayer : option string;      (* data.get("currentPlayer") *)
  currentTurnStartTime : option Z;    (* a number of milliseconds, else None *)
  civilizations : Civs;
}.

(** What [resp.json()] can return. *)
Inductive JsonDoc :=
  | DocNull                 (* JSON null: Python None *)
  | DocOther                (* a list, a number, a string, a boolean *)
  | DocDict (g : GameJson).

(** The literal [{"_not_modified": True}]. *)
Definition not_modified_dict : JsonDoc :=
  DocDict {| not_modified := true; currentPlayer := None;
             currentTurnStartTime := None; civilizations := civs_missing |}.

(** What reading the response body does. *)
Inductive Body :=
  | body_json (d : JsonDoc)
  | body_raises (e : Exn).

(** What the network does with one GET. *)
Inductive NetResult :=
  | no_response (e : Exn)   (* session.get raises: timeout or transport error *)
  | response (status : Z) (etag : option string) (body : Body).

Definition transient_exn (e : Exn) : bool :=
  match e with TimeoutError | ClientError => true | _ => false end.

(** The request ends in a timeout or a transport-level error: no response,
    an error status (raise_for_status raises ClientResponseError), or a
    body that cannot be read in time. *)
Definition transient (n : NetResult) : bool :=
  match n with
  | no_response e => transient_exn e
  | response status _ body =>
      if status =? 304 then false
      else if 400 <=? status then true
      else match body with
           | body_raises e => transient_exn e
           | body_json _ => false
           end
  end.

(* ------------------------------------------------------------------ *)
(** ** Outputs *)

(** Translation keys with their format arguments. *)
Inductive Message :=
  | notify_main_ping (nation login : string)
  | notify_main_no_ping (nation : string)
  | notify_reminder_ping (login : string) (delay : Z)
  | notify_reminder_no_ping (nation : string) (delay : Z)
  | error_server_down
  | pause_on
  | pause_off
  | pause_off_resumed_ping (login nation : string)
  | pause_off_resumed_no_ping (nation : string)
  | setgame_usage
  | setgame_fail_fetch (game_id : string)
  | setgame_fail_connect (error : Exn)
  | setgame_success (game_id : string) (nations : list string) (interval : Z)
  | status_no_game
  | status_current_player (game_id : string) (paused : bool) (nation : string)
                          (login : option string)   (* None: status_login_none *)
  | status_unknown_player (game_id : string) (paused : bool).

Inductive Event :=
  | http_get (url : string) (if_none_match : option string)
  | send_message (chat_id : Z) (text : Message) (delivered : bool)
      (* context.bot.send_message; delivered = false: the call raised *)
  | reply (text : Message).   (* update.message.reply_text / reply_html *)

Definition is_send (e : Event) : bool :=
  match e with send_message _ _ _ => true | _ => false end.

Definition sends (evs : list Event) : list Event := filter (fun e => is_send e = true) evs.

(* ------------------------------------------------------------------ *)
(** ** save_state / load_state *)

Definition json_opt_str (o : option string) : json :=
  match o with Some s => JStr s | None => JNull end.

Definition json_opt_int (o : option Z) : json :=
  match o with Some z => JInt z | None => JNull end.

Definition json_logins (d : list (string * string)) : json :=
  JDict (map (fun kv => (fst kv, JStr (snd kv))) d).

(** The dict [save_state] hands to [atomic_write_json]. *)
Definition payload (w : World) : json :=
  JDict [ ("GAME_ID", json_opt_str (GAME_ID w));
          ("CURRENT_GAME_URL", json_opt_str (CURRENT_GAME_URL w));
          ("MAIN_CHAT_ID", json_opt_int (MAIN_CHAT_ID w));
          ("PLAYER_LOGINS", json_logins (PLAYER_LOGINS w));
          ("LAST_TURN_PLAYER", json_opt_str (LAST_TURN_PLAYER w));
          ("BOT_LANGUAGE", JStr (BOT_LANGUAGE w));
          ("MONITOR_INTERVAL", JInt (MONITOR_INTERVAL_SECONDS_DEFAULT w)) ].

(** [disk_ok = false]: [atomic_write_json] raises; the exception is logged
    and the old file stays ([os.replace] is the last step). *)
Definition save_state (disk_ok : bool) (w : World) : World :=
  if disk_ok then set_STATE_FILE (JsonFile (payload w)) w else w.

(** [json.load] builds a dict: of two equal keys the later one wins. *)
Definition py_dict {V} (kv : list (string * V)) : list (string * V) :=
  fold_left (fun d e => dict_set (fst e) (snd e) d) kv [].

(** Typed readers for the values [load_state] assigns to the globals.  The
    outer [None] stands for a value of a type the typed globals cannot hold,
    which a file written by [save_state] never contains. *)
Definition read_opt_str (o : option json) : option (option string) :=
  match o with
  | None | Some JNull => Some None
  | Some (JStr s) => Some (Some s)
  | _ => None
  end.

Definition read_opt_int (o : option json) : option (option Z) :=
  match o with
  | None | Some JNull => Some None
  | Some (JInt z) => Some (Some z)
  | _ => None
  end.

Definition read_str (default : string) (o : option json) : option string :=
  match o with
  | None => Some default
  | Some (JStr s) => Some s
  | _ => None
  end.

Definition read_int (default : Z) (o : option json) : option Z :=
  match o with
  | None => Some default
  | Some (JInt z) => Some z
  | _ => None
  end.

Fixpoint read_str_values (kv : list (string * json)) : option (list (string * string)) :=
  match kv with
  | [] => Some []
  | (k, JStr s) :: r =>
      match read_str_values r with
      | Some r' => Some ((k, s) :: r')
      | None => None
      end
  | _ => None
  end.

Definition read_logins (o : option json) : option (list (string * string)) :=
  match o with
  | None => Some []
  | Some (JDict kv) => read_str_values (py_dict kv)
  | _ => None
  end.

(** [load_state]: the boolean it returns and the globals afterwards. *)
Definition load_state (w : World) : option (bool * World) :=
  match STATE_FILE w with
  | NoFile => Some (false, w)
  | Garbage => Some (false, w)              (* json.load raises: caught *)
  | JsonFile (JDict kv) =>
      let p := py_dict kv in
      match read_opt_str (dict_get "GAME_ID" p),
            read_opt_str (dict_get "CURRENT_GAME_URL" p),
            read_opt_int (dict_get "MAIN_CHAT_ID" p),
            read_logins (dict_get "PLAYER_LOGINS" p),
            read_opt_str (dict_get "LAST_TURN_PLAYER" p),
            read_str "en" (dict_get "BOT_LANGUAGE" p),
            read_int 60 (dict_get "MONITOR_INTERVAL" p) with
      | Some gid, Some url, Some chat, Some logins, Some last, Some lang, Some interval =>
          Some (true,
                {| GAME_ID := gid; CURRENT_GAME_URL := url;
                   LAST_TURN_PLAYER := last; MAIN_CHAT_ID := chat;
                   NOTIFY_PAUSED := NOTIFY_PAUSED w;
                   AVAILABLE_NATIONS := AVAILABLE_NATIONS w;
                   PLAYER_LOGINS := logins;
                   PLAYER_NOTIFICATION_STATE := PLAYER_NOTIFICATION_STATE w;
                   ETAG_CACHE := ETAG_CACHE w; BOT_LANGUAGE := lang;
                   MONITOR_INTERVAL_SECONDS_DEFAULT := interval;
                   last_error_time_by_chat := last_error_time_by_chat w;
                   STATE_FILE := STATE_FILE w |})
      | _, _, _, _, _, _, _ => None
      end
  | JsonFile _ => Some (false, w)           (* payload.get raises: caught *)
  end.

(** A process restart: the module body runs again, then [main] awaits
    [load_state]. *)
Definition restart (cfg : Config) (w : World) : option (bool * World) :=
  load_state (boot cfg (STATE_FILE w)).

(* ------------------------------------------------------------------ *)
(** ** normalize, get_raw_nation_name *)

Definition normalize (n : option string) : option string :=
  match n with
  | Some s => if String.eqb s "" then n else Some (upper s)
  | None => None
  end.

Definition get_raw_nation_name (nations : list string) (normalized_name : string) : string :=
  match List.find (fun n => String.eqb (upper n) normalized_name) nations with
  | Some n => n
  | None => normalized_name
  end.

(** On a name the tick goes on with (a non-empty string), [normalize] is
    [upper]; the tick below uses [upper] directly after its truth test. *)
Definition current_norm_of (current_player_raw : string) : option string :=
  normalize (Some current_player_raw).

(* ------------------------------------------------------------------ *)
(** ** fetch_game_json *)

(** The result, the ETag cache afterwards, and the requests issued. *)
Definition fetch_game_json (etags : gmap string string) (url : string) (n : NetResult)
  : Result JsonDoc * gmap string string * list Event :=
  let etag := etags !! url in
  let headers := if truthy_str etag then etag else None in
  let request := [http_get url headers] in
  match n with
  | no_response e => (Raise e, etags, request)          (* logged, re-raised *)
  | response status etag_new body =>
      if status =? 304 then (Return not_modified_dict, etags, request)
      else if 400 <=? status then (Raise ClientError, etags, request)
      else
        let etags' :=
          match etag_new with
          | Some e => if String.eqb e "" then etags else <[url := e]> etags
          | None => etags
          end in
        match body with
        | body_json d => (Return d, etags', request)
        | body_raises e => (Raise e, etags', request)
        end
  end.

(* ------------------------------------------------------------------ *)
(** ** The monitor tick *)

(** What the environment answers during one run of [monitor_game_state]. *)
Record TickEnv := {
  net : NetResult;       (* the GET of fetch_game_json *)
  now_fallback : Z;      (* datetime.now(), fallback turn start *)
  now_repair : Z;        (* datetime.now(), repair of last_reminded_time *)
  now_check : Z;         (* datetime.now(), compared with the target *)
  now_stamp : Z;         (* datetime.now(), stored after a reminder *)
  time_time : Q;         (* time.time() in send_debounced_error *)
  transport_ok : bool;   (* context.bot.send_message returns normally *)
  disk_ok : bool;        (* atomic_write_json returns normally *)
}.

(** [_last_error_time_by_chat.get(chat_id, 0)]. *)
Definition last_error_time (w : World) (chat_id : Z) : Q :=
  default 0%Q (last_error_time_by_chat w !! chat_id).

Definition send_debounced_error (env : TickEnv) (chat_id : Z) (message : Message)
    (w : World) : World * list Event :=
  let now := time_time env in
  let last := last_error_time w chat_id in
  if Qle_bool ERROR_DEBOUNCE_SECONDS (now - last) then
    if transport_ok env then
      (set_last_error_time_by_chat (<[chat_id := now]> (last_error_time_by_chat w)) w,
       [send_message chat_id message true])
    else (w, [send_message chat_id message false])
  else (w, []).

(** Years 1 to 9999, in milliseconds since the epoch. *)
Definition MIN_TIMESTAMP_MS : Z := -62135596800000.
Definition MAX_TIMESTAMP_MS : Z := 253402300799999.

(** [datetime.fromtimestamp(ms / 1000)], [None] for its ValueError. *)
Definition fromtimestamp_ms (ms : Z) : option Z :=
  if (MIN_TIMESTAMP_MS <=? ms) && (ms <=? MAX_TIMESTAMP_MS)
  then Some (ms * 1000) else None.

(** [current_turn_time]: the payload's turn start, else the clock. *)
Definition current_turn_time (env : TickEnv) (g : GameJson) : Z :=
  match currentTurnStartTime g with
  | Some ms =>
      if ms =? 0 then now_fallback env
      else match fromtimestamp_ms ms with
           | Some t => t
           | None => now_fallback env
           end
  | None => now_fallback env
  end.

(** [human_civs]: the comprehension over [civs]. *)
Definition human_civs (g : GameJson) : Result (list (option string)) :=
  match civilizations g with
  | civs_missing => Return []
  | civs_list l =>
      Return (map civName
                (filter (fun c => playerType c = Some "Human") l))
  | civs_invalid => Raise AttributeError
  end.

(** [[n for n in human_civs if n]]. *)
Fixpoint named (l : list (option string)) : list string :=
  match l with
  | [] => []
  | Some s :: r => if String.eqb s "" then named r else s :: named r
  | None :: r => named r
  end.

Definition fresh_reminder (t : Z) : Reminder :=
  {| last_turn_change_time := TIso t;
     next_reminder_index := 0;
     last_reminded_time := TIso t |}.

(** The branch [LAST_TURN_PLAYER is None]. *)
Definition first_observation (env : TickEnv) (g : GameJson) (current_norm : string)
    (w : World) : World :=
  let t := current_turn_time env g in
  let w := set_LAST_TURN_PLAYER (Some current_norm) w in
  let w := set_PLAYER_NOTIFICATION_STATE
             (<[current_norm := fresh_reminder t]> (PLAYER_NOTIFICATION_STATE w)) w in
  let w :=
    match human_civs g with
    | Return hc =>
        match hc with
        | [] => w
        | _ :: _ => set_AVAILABLE_NATIONS (named hc) w
        end
    | Raise _ => w
    end in
  save_state (disk_ok env) w.

(** The text of the turn-change notice: a ping when the player has a login. *)
Definition turn_change_text (player_login : option string) (raw_name : string) : Message :=
  if truthy_str player_login
  then notify_main_ping raw_name (default "" player_login)
  else notify_main_no_ping raw_name.

(** The branch [current_norm != LAST_TURN_PLAYER]. *)
Definition turn_changed (env : TickEnv) (g : GameJson) (current_player_raw current_norm : string)
    (w : World) : World * list Event :=
  let t := current_turn_time env g in
  let w := set_LAST_TURN_PLAYER (Some current_norm) w in
  let player_login := dict_get current_norm (PLAYER_LOGINS w) in
  let evs :=
    match MAIN_CHAT_ID w with
    | Some chat =>
        if negb (chat =? 0) && negb (NOTIFY_PAUSED w) then
          [send_message chat (turn_change_text player_login current_player_raw)
             (transport_ok env)]
        else []
    | None => []
    end in
  let w := set_PLAYER_NOTIFICATION_STATE
             (<[current_norm := fresh_reminder t]> (PLAYER_NOTIFICATION_STATE w)) w in
  (save_state (disk_ok env) w, evs).

(** The text of a reminder: a ping when the player has a login, else the
    nation under its published name. *)
Definition reminder_text (login : option string) (nations : list string)
    (current_norm : string) (delay : Z) : Message :=
  if truthy_str login
  then notify_reminder_ping (default "" login) delay
  else notify_reminder_no_ping (get_raw_nation_name nations current_norm) delay.

(** The reminder block, entered with [st = PLAYER_NOTIFICATION_STATE[current_norm]].
    [st] is the dict stored in the table, so an assignment to one of its keys
    is an update of the table. *)
Definition check_reminder (env : TickEnv) (current_norm : string) (chat : Z)
    (st : Reminder) (w : World) : Result unit * World * list Event :=
  let parsed :=
    match last_reminded_time st with
    | TIso t => Return (t, st, w)
    | TBadStr => Raise ValueError
    | TNotStr =>
        let st := {| last_turn_change_time := last_turn_change_time st;
                     next_reminder_index := next_reminder_index st;
                     last_reminded_time := TIso (now_repair env) |} in
        Return (now_repair env, st,
                set_PLAYER_NOTIFICATION_STATE
                  (<[current_norm := st]> (PLAYER_NOTIFICATION_STATE w)) w)
    end in
  match parsed with
  | Raise e => (Raise e, w, [])
  | Return (last_reminded, st, w) =>
      let idx := next_reminder_index st in
      match REMINDER_SCHEDULE !! idx with
      | Some delay =>
          let target := last_reminded + delay in
          if target <=? now_check env then
            let login := dict_get current_norm (PLAYER_LOGINS w) in
            let msg := reminder_text login (AVAILABLE_NATIONS w) current_norm delay in
            let st := {| last_turn_change_time := last_turn_change_time st;
                         next_reminder_index := S idx;
                         last_reminded_time := TIso (now_stamp env) |} in
            let w := set_PLAYER_NOTIFICATION_STATE
                       (<[current_norm := st]> (PLAYER_NOTIFICATION_STATE w)) w in
            (Return tt, save_state (disk_ok env) w,
             [send_message chat msg (transport_ok env)])
          else (Return tt, w, [])
      | None => (Return tt, w, [])      (* reminders exhausted *)
      end
  end.

(** [current_player_raw] when the tick goes on with it: the dict it was
    read from and the name, [None] when the tick returns early. *)
Definition observed_player (w : World) (data : JsonDoc) : option (GameJson * string) :=
  match data with
  | DocDict g =>
      match (if not_modified g then LAST_TURN_PLAYER w else currentPlayer g) with
      | Some raw => if String.eqb raw "" then None else Some (g, raw)
      | None => None
      end
  | _ => None
  end.

(** Everything after a fetch that returned [data]. *)
Definition handle_data (env : TickEnv) (data : JsonDoc) (w : World)
  : Result unit * World * list Event :=
  match observed_player w data with
  | None => (Return tt, w, [])
  | Some (g, current_player_raw) =>
      let current_norm := upper current_player_raw in
      match LAST_TURN_PLAYER w with
      | None => (Return tt, first_observation env g current_norm w, [])
      | Some last =>
          if negb (String.eqb current_norm last) then
            let '(w, evs) := turn_changed env g current_player_raw current_norm w in
            (Return tt, w, evs)
          else
            match PLAYER_NOTIFICATION_STATE w !! current_norm, MAIN_CHAT_ID w with
            | Some st, Some chat =>
                if negb (chat =? 0) && negb (NOTIFY_PAUSED w)
                then check_reminder env current_norm chat st w
                else (Return tt, w, [])
            | _, _ => (Return tt, w, [])
            end
      end
  end.

Definition monitor_game_state (env : TickEnv) (w : World)
  : Result unit * World * list Event :=
  if truthy_str (CURRENT_GAME_URL w) then
    let url := default "" (CURRENT_GAME_URL w) in
    let '(r, etags, req) := fetch_game_json (ETAG_CACHE w) url (net env) in
    let w := set_ETAG_CACHE etags w in
    match r with
    | Raise _ =>                       (* except Exception *)
        match MAIN_CHAT_ID w with
        | Some chat =>
            if negb (chat =? 0) then
              let '(w, evs) := send_debounced_error env chat error_server_down w in
              (Return tt, w, req ++ evs)
            else (Return tt, w, req)
        | None => (Return tt, w, req)
        end
    | Return data =>
        let '(r, w, evs) := handle_data env data w in
        (r, w, req ++ evs)
    end
  else (Return tt, w, []).

(** The ticks of the repeating job, one after the other.  A tick that
    raises is logged by the job queue and the next one still runs.  Each
    event is paired with the environment of the tick that emitted it. *)
Fixpoint run_ticks (envs : list TickEnv) (w : World) : World * list (TickEnv * Event) :=
  match envs with
  | [] => (w, [])
  | env :: rest =>
      let '(_, w1, evs) := monitor_game_state env w in
      let '(w2, evs') := run_ticks rest w1 in
      (w2, map (pair env) evs ++ evs')
  end.

(* ------------------------------------------------------------------ *)
(** ** Commands *)

(** [/pause].  [now1] and [now2] are the two [datetime.now()] readings of
    the dict literal, in evaluation order. *)
Definition pause_notifications (now1 now2 : Z) (disk_ok : bool) (w : World)
  : World * list Event :=
  let NOTIFY_PAUSED_BEFORE := NOTIFY_PAUSED w in
  let w := set_NOTIFY_PAUSED (negb (NOTIFY_PAUSED w)) w in
  let '(w, evs) :=
    if NOTIFY_PAUSED w then (w, [reply pause_on])
    else
      match LAST_TURN_PLAYER w with
      | Some last =>
          if negb (String.eqb last "") && NOTIFY_PAUSED_BEFORE then
            let raw := get_raw_nation_name (AVAILABLE_NATIONS w) last in
            let login := dict_get last (PLAYER_LOGINS w) in
            let msg :=
              if truthy_str login
              then pause_off_resumed_ping (default "" login) raw
              else pause_off_resumed_no_ping raw in
            let st := {| last_turn_change_time := TIso now1;
                         next_reminder_index := 0;
                         last_reminded_time := TIso now2 |} in
            (set_PLAYER_NOTIFICATION_STATE
               (<[last := st]> (PLAYER_NOTIFICATION_STATE w)) w,
             [reply msg])
          else (w, [reply pause_off])
      | None => (w, [reply pause_off])
      end in
  (save_state disk_ok w, evs).

(** [/setgame].  [chat] is [update.effective_chat.id] when there is a chat,
    [args] is [context.args] (already split on white space, so [strip] has
    nothing to remove). *)
Definition set_game (cfg : Config) (chat : option Z) (args : list string)
    (n : NetResult) (disk_ok : bool) (w : World) : World * list Event :=
  let w := match chat with Some c => set_MAIN_CHAT_ID (Some c) w | None => w end in
  match args with
  | [] => (w, [reply setgame_usage])
  | new_game_id :: _ =>
      let new_game_url := (BASE_URL cfg ++ new_game_id)%string in
      let '(r, etags, req) := fetch_game_json (ETAG_CACHE w) new_game_url n in
      let w := set_ETAG_CACHE etags w in
      match r with
      | Raise e => (w, req ++ [reply (setgame_fail_connect e)])
      | Return DocNull => (w, req ++ [reply (setgame_fail_fetch new_game_id)])
      | Return DocOther => (w, req ++ [reply (setgame_fail_connect AttributeError)])
      | Return (DocDict g) =>
          if not_modified g then (w, req ++ [reply (setgame_fail_fetch new_game_id)])
          else
            let w := set_PLAYER_LOGINS [] w in
            let w := set_PLAYER_NOTIFICATION_STATE ∅ w in
            let w := set_AVAILABLE_NATIONS [] w in
            let w := set_LAST_TURN_PLAYER None w in
            let w := set_GAME_ID (Some new_game_id) w in
            let w := set_CURRENT_GAME_URL (Some new_game_url) w in
            let w :=
              match human_civs g with
              | Return hc => set_AVAILABLE_NATIONS (named hc) w
              | Raise _ => set_AVAILABLE_NATIONS [] w
              end in
            let w := save_state disk_ok w in
            (w, req ++ [reply (setgame_success new_game_id (AVAILABLE_NATIONS w)
                                 (MONITOR_INTERVAL_SECONDS_DEFAULT w))])
      end
  end.

(** [/status]. *)
Definition status (w : World) : list Event :=
  if truthy_str (GAME_ID w) then
    let game_id := default "" (GAME_ID w) in
    match LAST_TURN_PLAYER w with
    | Some last =>
        if String.eqb last "" then [reply (status_unknown_player game_id (NOTIFY_PAUSED w))]
        else
          let raw := get_raw_nation_name (AVAILABLE_NATIONS w) last in
          let login := dict_get last (PLAYER_LOGINS w) in
          let login_text := if truthy_str login then login else None in
          [reply (status_current_player game_id (NOTIFY_PAUSED w) raw login_text)]
    | None => [reply (status_unknown_player game_id (NOTIFY_PAUSED w))]
    end
  else [reply status_no_game].

(* ------------------------------------------------------------------ *)
(** ** Observations on traces *)

(** The delay a reminder message announces. *)
Definition reminder_delay (m : Message) : option Z :=
  match m with
  | notify_reminder_ping _ delay | notify_reminder_no_ping _ delay => Some delay
  | _ => None
  end.

(** Reminder dispatches of a trace: the clock reading that passed the due
    test, and the delay of the schedule entry. *)
Fixpoint reminders (tr : list (TickEnv * Event)) : list (Z * Z) :=
  match tr with
  | [] => []
  | (env, send_message _ m _) :: r =>
      match reminder_delay m with
      | Some delay => (now_check env, delay) :: reminders r
      | None => reminders r
      end
  | _ :: r => reminders r
  end.

(** Times at which an error notice was delivered to [chat]. *)
Fixpoint error_times (chat : Z) (tr : list (TickEnv * Event)) : list Q :=
  match tr with
  | [] => []
  | (env, send_message c error_server_down true) :: r =>
      if c =? chat then time_time env :: error_times chat r else error_times chat r
  | _ :: r => error_times chat r
  end.


(** The dict and the player a tick goes on with, if it gets that far. *)
Definition tick_observes (env : TickEnv) (w : World) : option (GameJson * string) :=
  if truthy_str (CURRENT_GAME_URL w) then
    match fst (fst (fetch_game_json (ETAG_CACHE w) (default "" (CURRENT_GAME_URL w))
                      (net env))) with
    | Return data => observed_player w data
    | Raise _ => None
    end
  else None.





(* ------------------------------------------------------------------ *)
(** ** A concrete game, used by the examples below *)

Definition demo_config : Config :=
  {| BASE_URL := "https://uncivserver.xyz/jsons/";
     env_MONITOR_INTERVAL_SECONDS := 60;
     env_BOT_LANGUAGE := "en" |}.

Definition demo_payload (player : string) (start_ms : option Z) : GameJson :=
  {| not_modified := false;
     currentPlayer := Some player;
     currentTurnStartTime := start_ms;
     civilizations :=
       civs_list [ {| civName := Some "Rome"; playerType := Some "Human" |};
                   {| civName := Some "Egypt"; playerType := Some "Human" |};
                   {| civName := Some "Barbarians"; playerType := Some "AI" |} ] |}.

(** Rome to move since time 0, chat 7 listening, nobody subscribed. *)
Definition demo_world : World :=
  {| GAME_ID := Some "g1";
     CURRENT_GAME_URL := Some "https://uncivserver.xyz/jsons/g1";
     LAST_TURN_PLAYER := Some "ROME";
     MAIN_CHAT_ID := Some 7;
     NOTIFY_PAUSED := false;
     AVAILABLE_NATIONS := ["Rome"; "Egypt"];
     PLAYER_LOGINS := [("EGYPT", "@bob")];
     PLAYER_NOTIFICATION_STATE := {[ "ROME" := fresh_reminder 0 ]};
     ETAG_CACHE := ∅;
     BOT_LANGUAGE := "en";
     MONITOR_INTERVAL_SECONDS_DEFAULT := 60;
     last_error_time_by_chat := ∅;
     STATE_FILE := NoFile |}.


(** The same game before any tick has seen a player. *)
Definition demo_world_unobserved : World :=
  set_LAST_TURN_PLAYER None (set_PLAYER_NOTIFICATION_STATE ∅ demo_world).




(** A tick at [seconds] after time 0 on which the network does [n]; every
    clock reading of the tick is that instant. *)
Definition tick_at (seconds : Z) (n : NetResult) : TickEnv :=
  {| net := n;
     now_fallback := seconds * 1000000; now_repair := seconds * 1000000;
     now_check := seconds * 1000000; now_stamp := seconds * 1000000;
     time_time := inject_Z seconds;
     transport_ok := true; disk_ok := true |}.

Definition seconds (s : Z) : Z := s * 1000000.

(** [n] ticks, one a minute, the first at second 60; each time the server
    answers with the game file, Rome to move. *)
Definition minutely (n : nat) : list TickEnv :=
  map (fun k => tick_at (60 * Z.of_nat k)
                  (response 200 (Some "v1")
                     (body_json (DocDict (demo_payload "Rome" None)))))
      (seq 1 n).

(* ------------------------------------------------------------------ *)
(** ** The other commands *)

(** The text a command handler answers with (translation key and format
    arguments).  Each handler below answers exactly once on every path. *)
Inductive Answer :=
  | welcome
  | setinterval_usage
  | setinterval_success (interval : Z)
  | setlang_usage
  | setlang_success (lang_code : string)
  | subscribe_usage
  | subscribe_username_format
  | subscribe_nation_not_found
  | subscribe_success (nation username : string)
  | unsubscribe_usage
  | unsubscribe_success (username nation : string)
  | unsubscribe_not_found (username : string)
  | list_empty
  | list_title (lines : list (string * string)).   (* raw -> username *)

Definition set_BOT_LANGUAGE (v : string) (w : World) : World :=
  {| GAME_ID := GAME_ID w; CURRENT_GAME_URL := CURRENT_GAME_URL w;
     LAST_TURN_PLAYER := LAST_TURN_PLAYER w; MAIN_CHAT_ID := MAIN_CHAT_ID w;
     NOTIFY_PAUSED := NOTIFY_PAUSED w; AVAILABLE_NATIONS := AVAILABLE_NATIONS w;
     PLAYER_LOGINS := PLAYER_LOGINS w;
     PLAYER_NOTIFICATION_STATE := PLAYER_NOTIFICATION_STATE w;
     ETAG_CACHE := ETAG_CACHE w; BOT_LANGUAGE := v;
     MONITOR_INTERVAL_SECONDS_DEFAULT := MONITOR_INTERVAL_SECONDS_DEFAULT w;
     last_error_time_by_chat := last_error_time_by_chat w;
     STATE_FILE := STATE_FILE w |}.

Definition set_MONITOR_INTERVAL_SECONDS_DEFAULT (v : Z) (w : World) : World :=
  {| GAME_ID := GAME_ID w; CURRENT_GAME_URL := CURRENT_GAME_URL w;
     LAST_TURN_PLAYER := LAST_TURN_PLAYER w; MAIN_CHAT_ID := MAIN_CHAT_ID w;
     NOTIFY_PAUSED := NOTIFY_PAUSED w; AVAILABLE_NATIONS := AVAILABLE_NATIONS w;
     PLAYER_LOGINS := PLAYER_LOGINS w;
     PLAYER_NOTIFICATION_STATE := PLAYER_NOTIFICATION_STATE w;
     ETAG_CACHE := ETAG_CACHE w; BOT_LANGUAGE := BOT_LANGUAGE w;
     MONITOR_INTERVAL_SECONDS_DEFAULT := v;
     last_error_time_by_chat := last_error_time_by_chat w;
     STATE_FILE := STATE_FILE w |}.

(** [str.lower] on the ASCII range. *)
Definition lower_ascii (c : ascii) : ascii :=
  let n := nat_of_ascii c in
  if (65 <=? n)%nat && (n <=? 90)%nat then ascii_of_nat (n + 32) else c.

Fixpoint lower (s : string) : string :=
  match s with
  | EmptyString => EmptyString
  | String c r => String (lower_ascii c) (lower r)
  end.

(** [sub in s]. *)
Fixpoint contains (sub s : string) : bool :=
  String.prefix sub s
  || match s with
     | EmptyString => false
     | String _ r => contains sub r
     end.

(** [" ".join(l)]. *)
Fixpoint join_space (l : list string) : string :=
  match l with
  | [] => ""
  | [x] => x
  | x :: r => (x ++ " " ++ join_space r)%string
  end.

(** [str.isdigit] and [int] on ASCII digits. *)
Definition is_digit (c : ascii) : bool :=
  let n := nat_of_ascii c in (48 <=? n)%nat && (n <=? 57)%nat.

Fixpoint all_digits (s : string) : bool :=
  match s with
  | EmptyString => true
  | String c r => is_digit c && all_digits r
  end.

Definition isdigit (s : string) : bool := negb (String.eqb s "") && all_digits s.

Fixpoint int_of_digits (acc : Z) (s : string) : Z :=
  match s with
  | EmptyString => acc
  | String c r => int_of_digits (acc * 10 + Z.of_nat (nat_of_ascii c - 48)) r
  end.

(** [/start]. *)
Definition start (chat : option Z) (disk_ok : bool) (w : World) : World * Answer :=
  match chat with
  | Some c => (save_state disk_ok (set_MAIN_CHAT_ID (Some c) w), welcome)
  | None => (w, welcome)
  end.

(** A job of the job queue: its name, its interval and the delay of its
    first run, in seconds. *)
Record Job := {
  job_name : string;
  job_interval : Z;
  job_first : Z;
}.

(** [/setinterval].  [jobs] is the job queue: the jobs named monitor_job
    are removed and a new one is scheduled. *)
Definition set_interval_cmd (args : list string) (jobs : list Job) (disk_ok : bool)
    (w : World) : World * list Job * Answer :=
  match args with
  | [] => (w, jobs, setinterval_usage)
  | a :: _ =>
      if isdigit a then
        let new_interval := int_of_digits 0 a in
        let w := set_MONITOR_INTERVAL_SECONDS_DEFAULT new_interval w in
        let jobs := List.filter (fun j => negb (String.eqb (job_name j) "monitor_job")) jobs in
        let jobs := jobs ++ [ {| job_name := "monitor_job";
                                 job_interval := new_interval;
                                 job_first := 1 |} ] in
        (save_state disk_ok w, jobs, setinterval_success new_interval)
      else (w, jobs, setinterval_usage)
  end.

(** The job [main] schedules once the state is loaded. *)
Definition main_jobs (w : World) : list Job :=
  [ {| job_name := "monitor_job";
       job_interval := MONITOR_INTERVAL_SECONDS_DEFAULT w;
       job_first := 3 |} ].

(** [/setlang]. *)
Definition set_language_cmd (args : list string) (disk_ok : bool) (w : World)
  : World * Answer :=
  match args with
  | [] => (w, setlang_usage)
  | a :: _ =>
      let new_lang := lower a in
      if String.eqb new_lang "en" || String.eqb new_lang "ua" then
        (save_state disk_ok (set_BOT_LANGUAGE new_lang w), setlang_success new_lang)
      else (w, setlang_usage)
  end.

(** [/subscribe].  [args] are the words of the command, none of which
    holds white space, so the [strip] of the joined nation has nothing to
    remove. *)
Definition subscribe (chat : option Z) (args : list string) (disk_ok : bool)
    (w : World) : World * Answer :=
  let w := match chat with Some c => set_MAIN_CHAT_ID (Some c) w | None => w end in
  if (length args <? 2)%nat then (w, subscribe_usage)
  else
    let username_raw := List.last args "" in
    let nation_input := join_space (removelast args) in
    if negb (String.prefix "@" username_raw) then (w, subscribe_username_format)
    else
      let nation_input_upper := upper nation_input in
      match List.find (fun n => contains nation_input_upper (upper n))
                      (AVAILABLE_NATIONS w) with
      | Some found =>
          if String.eqb found "" then (w, subscribe_nation_not_found)
          else
            let norm := upper found in
            let w := set_PLAYER_LOGINS (dict_set norm username_raw (PLAYER_LOGINS w)) w in
            (save_state disk_ok w, subscribe_success found username_raw)
      | None => (w, subscribe_nation_not_found)
      end.

(** [/unsubscribe]. *)
Definition unsubscribe (args : list string) (disk_ok : bool) (w : World)
  : World * Answer :=
  match args with
  | [] => (w, unsubscribe_usage)
  | username :: _ =>
      if negb (String.prefix "@" username) then (w, unsubscribe_usage)
      else
        match List.find (fun kv => String.eqb (snd kv) username) (PLAYER_LOGINS w) with
        | Some (found_key, _) =>
            if String.eqb found_key "" then (w, unsubscribe_not_found username)
            else
              let raw_name := get_raw_nation_name (AVAILABLE_NATIONS w) found_key in
              let w := set_PLAYER_LOGINS (dict_del found_key (PLAYER_LOGINS w)) w in
              (save_state disk_ok w, unsubscribe_success username raw_name)
        | None => (w, unsubscribe_not_found username)
        end
  end.

(** [/list]. *)
Definition list_subscriptions (w : World) : Answer :=
  match PLAYER_LOGINS w with
  | [] => list_empty
  | logins =>
      list_title
        (map (fun kv => (get_raw_nation_name (AVAILABLE_NATIONS w) (fst kv), snd kv))
             logins)
  end.

(** An entry as the code writes it: a parsed last_reminded_time and an
    index that is at most the length of the schedule. *)
Definition entry_ok (st : Reminder) : Prop :=
  (exists t, last_reminded_time st = TIso t) /\
  (next_reminder_index st <= length REMINDER_SCHEDULE)%nat.

(** What holds of the globals that go into the state file: subscription
    keys are unique, non-empty and normalized and every login starts with
    "@"; the last player, when known, is a non-empty normalized name; the
    URL is the base URL followed by the game id; the language is the
    configured one, "en" or "ua". *)
Definition persisted_ok (cfg : Config) (w : World) : Prop :=
  unique_keys (PLAYER_LOGINS w) = true /\
  (forall k u, In (k, u) (PLAYER_LOGINS w) ->
               k <> "" /\ upper k = k /\ String.prefix "@" u = true) /\
  (forall p, LAST_TURN_PLAYER w = Some p -> p <> "" /\ upper p = p) /\
  ((GAME_ID w = None /\ CURRENT_GAME_URL w = None) \/
   exists id, GAME_ID w = Some id /\
              CURRENT_GAME_URL w = Some (BASE_URL cfg ++ id)%string) /\
  (BOT_LANGUAGE w = env_BOT_LANGUAGE cfg \/ BOT_LANGUAGE w = "en" \/ BOT_LANGUAGE w = "ua").

Definition entries_ok (w : World) : Prop :=
  forall k st, PLAYER_NOTIFICATION_STATE w !! k = Some st -> entry_ok st.

(** The state file is absent or is a snapshot [save_state] wrote. *)
Definition file_ok (cfg : Config) (w : World) : Prop :=
  STATE_FILE w = NoFile \/
  exists w0, STATE_FILE w = JsonFile (payload w0) /\ persisted_ok cfg w0.

Definition invariant (cfg : Config) (w : World) : Prop :=
  persisted_ok cfg w /\ entries_ok w /\ file_ok cfg w.

(** The states the bot can be in: a fresh install ([main] finds no state
    file), then any sequence of ticks, commands and restarts. *)
Inductive reachable (cfg : Config) : World -> Prop :=
  | reach_fresh : reachable cfg (boot cfg NoFile)
  | reach_restart w ok w' :
      reachable cfg w -> restart cfg w = Some (ok, w') -> reachable cfg w'
  | reach_tick w env :
      reachable cfg w -> reachable cfg (snd (fst (monitor_game_state env w)))
  | reach_start w chat disk :
      reachable cfg w -> reachable cfg (fst (start chat disk w))
  | reach_set_game w chat args n disk :
      reachable cfg w -> reachable cfg (fst (set_game cfg chat args n disk w))
  | reach_set_interval w args jobs disk :
      reachable cfg w -> reachable cfg (fst (fst (set_interval_cmd args jobs disk w)))
  | reach_set_language w args disk :
      reachable cfg w -> reachable cfg (fst (set_language_cmd args disk w))
  | reach_subscribe w chat args disk :
      reachable cfg w -> reachable cfg (fst (subscribe chat args disk w))
  | reach_unsubscribe w args disk :
      reachable cfg w -> reachable cfg (fst (unsubscribe args disk w))
  | reach_pause w now1 now2 disk :
      reachable cfg w -> reachable cfg (fst (pause_notifications now1 now2 disk w)).

(** A session from a fresh install: /setgame g1 from chat 7, a first tick
    that sees Rome to move, and /subscribe Egypt @bob. *)
Definition demo_session_game : World :=
  fst (set_game demo_config (Some 7) ["g1"]
         (response 200 (Some "v1") (body_json (DocDict (demo_payload "Rome" None))))
         true (boot demo_config NoFile)).

Definition demo_session_observed : World :=
  snd (fst (monitor_game_state
              (tick_at 60 (response 200 (Some "v2")
                             (body_json (DocDict (demo_payload "Rome" None)))))
              demo_session_game)).

Definition demo_session : World :=
  fst (subscribe (Some 7) ["Egypt"; "@bob"] true demo_session_observed).

(** Reads of a global after assignments to globals. *)
Ltac world_simpl :=
  cbn [GAME_ID CURRENT_GAME_URL LAST_TURN_PLAYER MAIN_CHAT_ID NOTIFY_PAUSED
       AVAILABLE_NATIONS PLAYER_LOGINS PLAYER_NOTIFICATION_STATE ETAG_CACHE
       BOT_LANGUAGE MONITOR_INTERVAL_SECONDS_DEFAULT last_error_time_by_chat
       STATE_FILE set_GAME_ID set_CURRENT_GAME_URL set_LAST_TURN_PLAYER
       set_MAIN_CHAT_ID set_NOTIFY_PAUSED set_AVAILABLE_NATIONS set_PLAYER_LOGINS
       set_PLAYER_NOTIFICATION_STATE set_ETAG_CACHE set_last_error_time_by_chat
       set_STATE_FILE save_state fst snd] in *.

(* ================================================================== *)
(** * Properties *)

(** ** The fetcher *)

Lemma normalize_truthy raw :
  raw <> "" -> current_norm_of raw = Some (upper raw).
Proof.
  intros H. unfold current_norm_of, normalize.
  apply String.eqb_neq in H. rewrite H. reflexivity.
Qed.

(** Normalization folds case: the three spellings of section 8 agree. *)
Example normalize_rome :
  normalize (Some "Rome") = Some "ROME" /\
  normalize (Some "ROME") = Some "ROME" /\
  normalize (Some "rome") = Some "ROME".
Proof. repeat split. Qed.

Lemma fetch_requests_once etags url n :
  snd (fetch_game_json etags url n)
  = [http_get url (if truthy_str (etags !! url) then etags !! url else None)].
Proof.
  unfold fetch_game_json. destruct n as [e|status etag body]; [reflexivity|].
  destruct (status =? 304); [reflexivity|].
  destruct (400 <=? status); [reflexivity|].
  destruct body; reflexivity.
Qed.

Lemma fetch_transient etags url n :
  transient n = true ->
  exists e etags',
    fetch_game_json etags url n
    = (Raise e, etags',
       [http_get url (if truthy_str (etags !! url) then etags !! url else None)])
    /\ transient_exn e = true.
Proof.
  unfold transient, fetch_game_json.
  destruct n as [e|status etag body].
  - intros He. exists e, etags. split; [reflexivity|exact He].
  - destruct (status =? 304); [discriminate|].
    destruct (400 <=? status).
    + intros _. exists ClientError, etags. split; reflexivity.
    + destruct body as [d|e]; [discriminate|].
      intros He. eexists e, _. split; [reflexivity|exact He].
Qed.

(** An error status or an unanswered request leaves the ETag cache alone. *)
Lemma fetch_no_response_keeps_etags etags url e :
  snd (fst (fetch_game_json etags url (no_response e))) = etags.
Proof. reflexivity. Qed.

(** ** The debounced error notice *)

Lemma send_debounced_error_frame env chat m w :
  let w' := fst (send_debounced_error env chat m w) in
  GAME_ID w' = GAME_ID w /\ CURRENT_GAME_URL w' = CURRENT_GAME_URL w /\
  LAST_TURN_PLAYER w' = LAST_TURN_PLAYER w /\ MAIN_CHAT_ID w' = MAIN_CHAT_ID w /\
  NOTIFY_PAUSED w' = NOTIFY_PAUSED w /\ AVAILABLE_NATIONS w' = AVAILABLE_NATIONS w /\
  PLAYER_LOGINS w' = PLAYER_LOGINS w /\
  PLAYER_NOTIFICATION_STATE w' = PLAYER_NOTIFICATION_STATE w /\
  ETAG_CACHE w' = ETAG_CACHE w /\ STATE_FILE w' = STATE_FILE w.
Proof.
  unfold send_debounced_error.
  destruct (Qle_bool _ _); [destruct (transport_ok env)|]; cbn; repeat split.
Qed.

Lemma send_debounced_error_events env chat m w :
  snd (send_debounced_error env chat m w) = []
  \/ exists ok, snd (send_debounced_error env chat m w) = [send_message chat m ok].
Proof.
  unfold send_debounced_error.
  destruct (Qle_bool _ _); [destruct (transport_ok env)|]; cbn; eauto.
Qed.

(** ** A tick whose fetch fails *)

(** The shape of a tick whose fetch raised. *)
Lemma monitor_fetch_failed env w e etags' req :
  truthy_str (CURRENT_GAME_URL w) = true ->
  fetch_game_json (ETAG_CACHE w) (default "" (CURRENT_GAME_URL w)) (net env)
  = (Raise e, etags', req) ->
  monitor_game_state env w
  = match MAIN_CHAT_ID w with
    | Some chat =>
        if negb (chat =? 0) then
          (Return tt,
           fst (send_debounced_error env chat error_server_down (set_ETAG_CACHE etags' w)),
           req ++ snd (send_debounced_error env chat error_server_down (set_ETAG_CACHE etags' w)))
        else (Return tt, set_ETAG_CACHE etags' w, req)
    | None => (Return tt, set_ETAG_CACHE etags' w, req)
    end.
Proof.
  intros Hurl Hf. unfold monitor_game_state. rewrite Hurl, Hf. cbn.
  destruct (MAIN_CHAT_ID w) as [chat|]; [|reflexivity].
  destruct (negb (chat =? 0)); [|reflexivity].
  destruct (send_debounced_error _ _ _ _); reflexivity.
Qed.

(** C2.  A tick whose fetch ends in a timeout or a transport error returns
    normally, leaves LAST_TURN_PLAYER, PLAYER_NOTIFICATION_STATE and
    AVAILABLE_NATIONS (and the session, the subscriptions, the pause flag
    and the state file) as they were, and sends at most one message, which
    is the server-down notice to the main chat. *)
Theorem transient_failure_preserves_state (env : TickEnv) (w : World) :
  transient (net env) = true ->
  let '(r, w', evs) := monitor_game_state env w in
  r = Return tt /\
  LAST_TURN_PLAYER w' = LAST_TURN_PLAYER w /\
  PLAYER_NOTIFICATION_STATE w' = PLAYER_NOTIFICATION_STATE w /\
  AVAILABLE_NATIONS w' = AVAILABLE_NATIONS w /\
  GAME_ID w' = GAME_ID w /\ CURRENT_GAME_URL w' = CURRENT_GAME_URL w /\
  PLAYER_LOGINS w' = PLAYER_LOGINS w /\ NOTIFY_PAUSED w' = NOTIFY_PAUSED w /\
  MAIN_CHAT_ID w' = MAIN_CHAT_ID w /\ STATE_FILE w' = STATE_FILE w /\
  (sends evs = [] \/
   exists chat ok, MAIN_CHAT_ID w = Some chat /\
                   sends evs = [send_message chat error_server_down ok]).
Proof.
  intros Ht.
  destruct (truthy_str (CURRENT_GAME_URL w)) eqn:Hurl.
  - destruct (fetch_transient (ETAG_CACHE w) (default "" (CURRENT_GAME_URL w)) _ Ht)
      as (e & etags' & Hf & _).
    rewrite (monitor_fetch_failed _ _ _ _ _ Hurl Hf).
    destruct (MAIN_CHAT_ID w) as [chat|] eqn:Hchat;
      [destruct (negb (chat =? 0))|]; cbn;
      try (repeat split; try assumption; left; reflexivity).
    pose proof (send_debounced_error_frame env chat error_server_down
                  (set_ETAG_CACHE etags' w)) as F. cbn in F.
    destruct F as (F1 & F2 & F3 & F4 & F5 & F6 & F7 & F8 & _ & F10).
    repeat split; try assumption; try congruence.
    destruct (send_debounced_error_events env chat error_server_down
                (set_ETAG_CACHE etags' w)) as [E|[ok E]]; rewrite E.
    + left. reflexivity.
    + right. exists chat, ok. split; reflexivity.
  - unfold monitor_game_state. rewrite Hurl.
    repeat split; left; reflexivity.
Qed.

Lemma transient_failure_preserves_state_witness :
  let env := tick_at 60 (no_response TimeoutError) in
  transient (net env) = true /\
  let '(r, w', evs) := monitor_game_state env demo_world in
  r = Return tt /\
  LAST_TURN_PLAYER w' = LAST_TURN_PLAYER demo_world /\
  PLAYER_NOTIFICATION_STATE w' = PLAYER_NOTIFICATION_STATE demo_world /\
  AVAILABLE_NATIONS w' = AVAILABLE_NATIONS demo_world /\
  GAME_ID w' = GAME_ID demo_world /\
  CURRENT_GAME_URL w' = CURRENT_GAME_URL demo_world /\
  PLAYER_LOGINS w' = PLAYER_LOGINS demo_world /\
  NOTIFY_PAUSED w' = NOTIFY_PAUSED demo_world /\
  MAIN_CHAT_ID w' = MAIN_CHAT_ID demo_world /\
  STATE_FILE w' = STATE_FILE demo_world /\
  (sends evs = [] \/
   exists chat ok, MAIN_CHAT_ID demo_world = Some chat /\
                   sends evs = [send_message chat error_server_down ok]).
Proof.
  split; [reflexivity|].
  apply (transient_failure_preserves_state (tick_at 60 (no_response TimeoutError)) demo_world).
  reflexivity.
Defined.

(** ** Timeouts and transport errors in the fetcher and its callers *)

(** What [/setgame] leaves untouched when its fetch raises. *)
Lemma set_game_fetch_failed cfg chat id args n disk w :
  transient n = true ->
  let '(w', evs) := set_game cfg chat (id :: args) n disk w in
  (exists e, transient_exn e = true /\
             List.last evs (reply setgame_usage) = reply (setgame_fail_connect e)) /\
  GAME_ID w' = GAME_ID w /\ CURRENT_GAME_URL w' = CURRENT_GAME_URL w /\
  LAST_TURN_PLAYER w' = LAST_TURN_PLAYER w /\
  AVAILABLE_NATIONS w' = AVAILABLE_NATIONS w /\
  PLAYER_LOGINS w' = PLAYER_LOGINS w /\
  PLAYER_NOTIFICATION_STATE w' = PLAYER_NOTIFICATION_STATE w /\
  STATE_FILE w' = STATE_FILE w.
Proof.
  intros Ht. unfold set_game.
  set (w0 := match chat with Some c => set_MAIN_CHAT_ID (Some c) w | None => w end).
  assert (Hw0 : GAME_ID w0 = GAME_ID w /\ CURRENT_GAME_URL w0 = CURRENT_GAME_URL w /\
                LAST_TURN_PLAYER w0 = LAST_TURN_PLAYER w /\
                AVAILABLE_NATIONS w0 = AVAILABLE_NATIONS w /\
                PLAYER_LOGINS w0 = PLAYER_LOGINS w /\
                PLAYER_NOTIFICATION_STATE w0 = PLAYER_NOTIFICATION_STATE w /\
                STATE_FILE w0 = STATE_FILE w)
    by (subst w0; destruct chat; repeat split).
  destruct (fetch_transient (ETAG_CACHE w0) (BASE_URL cfg ++ id)%string n Ht)
    as (e & etags' & Hf & He).
  rewrite Hf. cbn.
  split; [exists e; split; [exact He|reflexivity]|exact Hw0].
Qed.

(** C4 (as the code has it).  A timeout or a transport error makes
    [fetch_game_json] raise that exception to its caller after a single GET
    (no retry); both callers catch it: the monitor tick returns normally and
    [/setgame] answers with the connection-failure text, so the failure is
    never fatal. *)
Theorem fetch_failure_raised_once_and_caught
    (cfg : Config) (env : TickEnv) (w : World) (etags : gmap string string)
    (url : string) (chat : option Z) (id : string) (args : list string) (disk : bool) :
  transient (net env) = true ->
  (exists e, transient_exn e = true /\
             fst (fst (fetch_game_json etags url (net env))) = Raise e) /\
  length (snd (fetch_game_json etags url (net env))) = 1%nat /\
  fst (fst (monitor_game_state env w)) = Return tt /\
  (exists e, transient_exn e = true /\
     List.last (snd (set_game cfg chat (id :: args) (net env) disk w)) (reply setgame_usage)
     = reply (setgame_fail_connect e)).
Proof.
  intros Ht. repeat split.
  - destruct (fetch_transient etags url _ Ht) as (e & etags' & Hf & He).
    exists e. rewrite Hf. split; [exact He|reflexivity].
  - rewrite fetch_requests_once. reflexivity.
  - destruct (truthy_str (CURRENT_GAME_URL w)) eqn:Hurl.
    + destruct (fetch_transient (ETAG_CACHE w) (default "" (CURRENT_GAME_URL w)) _ Ht)
        as (e & etags' & Hf & _).
      rewrite (monitor_fetch_failed _ _ _ _ _ Hurl Hf).
      destruct (MAIN_CHAT_ID w) as [c|]; [destruct (negb (c =? 0))|]; reflexivity.
    + unfold monitor_game_state. rewrite Hurl. reflexivity.
  - pose proof (set_game_fetch_failed cfg chat id args (net env) disk w Ht) as H.
    destruct (set_game cfg chat (id :: args) (net env) disk w) as [w' evs].
    cbn. apply H.
Qed.

Lemma fetch_failure_raised_once_and_caught_witness :
  let env := tick_at 60 (no_response TimeoutError) in
  transient (net env) = true /\
  (exists e, transient_exn e = true /\
             fst (fst (fetch_game_json ∅ "u" (net env))) = Raise e) /\
  length (snd (fetch_game_json ∅ "u" (net env))) = 1%nat /\
  fst (fst (monitor_game_state env demo_world)) = Return tt /\
  (exists e, transient_exn e = true /\
     List.last (snd (set_game demo_config (Some 7) ("g2" :: []) (net env) true demo_world))
               (reply setgame_usage)
     = reply (setgame_fail_connect e)).
Proof.
  split; [reflexivity|].
  apply (fetch_failure_raised_once_and_caught demo_config
           (tick_at 60 (no_response TimeoutError)) demo_world ∅ "u" (Some 7) "g2" [] true).
  reflexivity.
Defined.

(** C4 as stated fails: on a timeout the fetcher does not hand a failure
    value back, it raises; no call returns. *)
Lemma fetcher_raises_on_timeout :
  fetch_game_json ∅ "https://uncivserver.xyz/jsons/g1" (no_response TimeoutError)
  = (Raise TimeoutError, ∅, [http_get "https://uncivserver.xyz/jsons/g1" None])
  /\ returns (fst (fst (fetch_game_json ∅ "https://uncivserver.xyz/jsons/g1"
                          (no_response TimeoutError)))) = false.
Proof. split; reflexivity. Qed.

(** ** The state file *)

Section DictFacts.
Context {V : Type}.
Implicit Types (d : list (string * V)) (k : string).

Lemma has_key_app k d1 d2 : has_key k (d1 ++ d2) = has_key k d1 || has_key k d2.
Proof.
  induction d1 as [|[k' v'] d1 IH]; cbn; [reflexivity|].
  rewrite IH. apply orb_assoc.
Qed.

Lemma dict_set_fresh k (v : V) d :
  has_key k d = false -> dict_set k v d = d ++ [(k, v)].
Proof.
  induction d as [|[k' v'] d IH]; cbn; [reflexivity|].
  destruct (String.eqb k k'); cbn; [discriminate|].
  intros H. rewrite (IH H). reflexivity.
Qed.

Lemma unique_keys_app_fresh d1 k (v : V) d2 :
  unique_keys (d1 ++ (k, v) :: d2) = true -> has_key k d1 = false.
Proof.
  induction d1 as [|[k' v'] d1 IH]; cbn; [reflexivity|].
  rewrite has_key_app. cbn. intros H.
  apply andb_true_iff in H as [H1 H2].
  apply negb_true_iff, orb_false_iff in H1 as [_ H1].
  apply orb_false_iff in H1 as [H1 _].
  rewrite String.eqb_sym, H1. cbn. apply IH, H2.
Qed.

(** Loading the items of a dict rebuilds the dict. *)
Lemma py_dict_unique_from d acc :
  unique_keys (acc ++ d) = true ->
  fold_left (fun d e => dict_set (fst e) (snd e) d) d acc = acc ++ d.
Proof.
  revert acc. induction d as [|[k v] d IH]; intros acc H; cbn.
  - symmetry. apply app_nil_r.
  - rewrite (dict_set_fresh k v acc (unique_keys_app_fresh _ _ _ _ H)).
    rewrite IH; rewrite <- app_assoc; [reflexivity|exact H].
Qed.

Lemma py_dict_unique d : unique_keys d = true -> py_dict d = d.
Proof. intros H. apply (py_dict_unique_from d []), H. Qed.
End DictFacts.

Lemma has_key_json_logins k (d : list (string * string)) :
  has_key k (map (fun kv => (fst kv, JStr (snd kv))) d) = has_key k d.
Proof.
  induction d as [|[k' v'] d IH]; cbn; [reflexivity|]. rewrite IH. reflexivity.
Qed.

Lemma unique_keys_json_logins (d : list (string * string)) :
  unique_keys (map (fun kv => (fst kv, JStr (snd kv))) d) = unique_keys d.
Proof.
  induction d as [|[k' v'] d IH]; cbn; [reflexivity|].
  rewrite has_key_json_logins, IH. reflexivity.
Qed.

Lemma read_str_values_json_logins (d : list (string * string)) :
  read_str_values (map (fun kv => (fst kv, JStr (snd kv))) d) = Some d.
Proof.
  induction d as [|[k' v'] d IH]; cbn; [reflexivity|]. rewrite IH. reflexivity.
Qed.

Lemma read_logins_json_logins (d : list (string * string)) :
  unique_keys d = true -> read_logins (Some (json_logins d)) = Some d.
Proof.
  intros H. unfold read_logins, json_logins.
  rewrite py_dict_unique by (rewrite unique_keys_json_logins; exact H).
  apply read_str_values_json_logins.
Qed.

Lemma read_opt_str_json o : read_opt_str (Some (json_opt_str o)) = Some o.
Proof. destruct o; reflexivity. Qed.

Lemma read_opt_int_json o : read_opt_int (Some (json_opt_int o)) = Some o.
Proof. destruct o; reflexivity. Qed.

(** The keys [save_state] writes are pairwise distinct, so each [get] of
    [load_state] finds the value written under its key. *)
Lemma load_after_save (w0 w : World) :
  unique_keys (PLAYER_LOGINS w) = true ->
  load_state (set_STATE_FILE (JsonFile (payload w)) w0)
  = Some (true,
          {| GAME_ID := GAME_ID w; CURRENT_GAME_URL := CURRENT_GAME_URL w;
             LAST_TURN_PLAYER := LAST_TURN_PLAYER w; MAIN_CHAT_ID := MAIN_CHAT_ID w;
             NOTIFY_PAUSED := NOTIFY_PAUSED w0;
             AVAILABLE_NATIONS := AVAILABLE_NATIONS w0;
             PLAYER_LOGINS := PLAYER_LOGINS w;
             PLAYER_NOTIFICATION_STATE := PLAYER_NOTIFICATION_STATE w0;
             ETAG_CACHE := ETAG_CACHE w0; BOT_LANGUAGE := BOT_LANGUAGE w;
             MONITOR_INTERVAL_SECONDS_DEFAULT := MONITOR_INTERVAL_SECONDS_DEFAULT w;
             last_error_time_by_chat := last_error_time_by_chat w0;
             STATE_FILE := JsonFile (payload w) |}).
Proof.
  intros H. pose proof (read_logins_json_logins _ H) as HL.
  unfold read_logins, json_logins in HL.
  unfold load_state, payload. cbn. rewrite HL.
  destruct (GAME_ID w), (CURRENT_GAME_URL w), (MAIN_CHAT_ID w), (LAST_TURN_PLAYER w);
    reflexivity.
Qed.

(** C5 (as the code has it).  After a successful [save_state] and a process
    restart, [load_state] restores GAME_ID, CURRENT_GAME_URL, MAIN_CHAT_ID,
    PLAYER_LOGINS, LAST_TURN_PLAYER, BOT_LANGUAGE and the monitor interval to
    their values at save time; the pause flag, the roster, the reminder
    table, the ETag cache and the error debounce table are not in the file
    and come up as the module initialises them. *)
Theorem restart_restores_saved_fields (cfg : Config) (w : World) :
  unique_keys (PLAYER_LOGINS w) = true ->
  restart cfg (save_state true w)
  = Some (true,
          {| GAME_ID := GAME_ID w; CURRENT_GAME_URL := CURRENT_GAME_URL w;
             LAST_TURN_PLAYER := LAST_TURN_PLAYER w; MAIN_CHAT_ID := MAIN_CHAT_ID w;
             NOTIFY_PAUSED := false;
             AVAILABLE_NATIONS := [];
             PLAYER_LOGINS := PLAYER_LOGINS w;
             PLAYER_NOTIFICATION_STATE := ∅;
             ETAG_CACHE := ∅; BOT_LANGUAGE := BOT_LANGUAGE w;
             MONITOR_INTERVAL_SECONDS_DEFAULT := MONITOR_INTERVAL_SECONDS_DEFAULT w;
             last_error_time_by_chat := ∅;
             STATE_FILE := JsonFile (payload w) |}).
Proof.
  intros H. unfold restart, save_state. cbn [STATE_FILE set_STATE_FILE].
  exact (load_after_save (boot cfg NoFile) w H).
Qed.

Lemma restart_restores_saved_fields_witness :
  unique_keys (PLAYER_LOGINS demo_world) = true /\
  restart demo_config (save_state true demo_world)
  = Some (true,
          {| GAME_ID := Some "g1";
             CURRENT_GAME_URL := Some "https://uncivserver.xyz/jsons/g1";
             LAST_TURN_PLAYER := Some "ROME"; MAIN_CHAT_ID := Some 7;
             NOTIFY_PAUSED := false;
             AVAILABLE_NATIONS := [];
             PLAYER_LOGINS := [("EGYPT", "@bob")];
             PLAYER_NOTIFICATION_STATE := ∅;
             ETAG_CACHE := ∅; BOT_LANGUAGE := "en";
             MONITOR_INTERVAL_SECONDS_DEFAULT := 60;
             last_error_time_by_chat := ∅;
             STATE_FILE := JsonFile (payload demo_world) |}).
Proof.
  split; [reflexivity|].
  exact (restart_restores_saved_fields demo_config demo_world eq_refl).
Defined.

(** C5 as stated fails: a paused bot with a roster and a running reminder
    comes back unpaused, with an empty roster and no reminder entry. *)
Lemma restart_forgets_pause_roster_reminders :
  let w := set_NOTIFY_PAUSED true demo_world in
  exists w', restart demo_config (save_state true w) = Some (true, w') /\
    NOTIFY_PAUSED w = true /\ NOTIFY_PAUSED w' = false /\
    AVAILABLE_NATIONS w = ["Rome"; "Egypt"] /\ AVAILABLE_NATIONS w' = [] /\
    PLAYER_NOTIFICATION_STATE w !! "ROME" = Some (fresh_reminder 0) /\
    PLAYER_NOTIFICATION_STATE w' !! "ROME" = None.
Proof.
  eexists. split; [reflexivity|]. repeat split.
Qed.

(** ** A tick whose fetch returns *)

Lemma sends_request url h evs : sends ([http_get url h] ++ evs) = sends evs.
Proof. reflexivity. Qed.

Lemma monitor_fetched env w data etags' req :
  truthy_str (CURRENT_GAME_URL w) = true ->
  fetch_game_json (ETAG_CACHE w) (default "" (CURRENT_GAME_URL w)) (net env)
  = (Return data, etags', req) ->
  monitor_game_state env w
  = (fst (fst (handle_data env data (set_ETAG_CACHE etags' w))),
     snd (fst (handle_data env data (set_ETAG_CACHE etags' w))),
     req ++ snd (handle_data env data (set_ETAG_CACHE etags' w))).
Proof.
  intros Hurl Hf. unfold monitor_game_state. rewrite Hurl, Hf. cbn.
  destruct (handle_data _ _ _) as [[r w'] evs]. reflexivity.
Qed.

(** Unfolding [tick_observes] into the facts the tick acts on. *)
Lemma tick_observes_inv env w g raw :
  tick_observes env w = Some (g, raw) ->
  truthy_str (CURRENT_GAME_URL w) = true /\
  exists data etags' h,
    fetch_game_json (ETAG_CACHE w) (default "" (CURRENT_GAME_URL w)) (net env)
    = (Return data, etags', [http_get (default "" (CURRENT_GAME_URL w)) h]) /\
    observed_player w data = Some (g, raw).
Proof.
  unfold tick_observes. destruct (truthy_str (CURRENT_GAME_URL w)); [|discriminate].
  pose proof (fetch_requests_once (ETAG_CACHE w) (default "" (CURRENT_GAME_URL w)) (net env)) as Hr.
  destruct (fetch_game_json _ _ _) as [[r etags'] req]. cbn in *.
  destruct r as [data|e]; [|discriminate].
  intros H. split; [reflexivity|]. subst req. eauto.
Qed.

Lemma save_state_file ok w :
  ok = true -> STATE_FILE (save_state ok w) = JsonFile (payload (save_state ok w)).
Proof. intros ->. reflexivity. Qed.






(** The scenario of the specification: Egypt follows Rome, is subscribed as
    @bob, and its turn starts at the payload's time. *)
Example turn_change_scenario :
  let g := demo_payload "Egypt" (Some 1700000000000) in
  let env := tick_at 120 (response 200 (Some "v2") (body_json (DocDict g))) in
  let '(r, w', evs) := monitor_game_state env demo_world in
  LAST_TURN_PLAYER w' = Some "EGYPT" /\
  PLAYER_NOTIFICATION_STATE w' !! "EGYPT" = Some (fresh_reminder 1700000000000000) /\
  sends evs = [send_message 7 (notify_main_ping "Egypt" "@bob") true].
Proof. repeat split. Qed.

(** ** The reminder block *)

Lemma fetch_result_ignores_etags e1 e2 url1 url2 n :
  fst (fst (fetch_game_json e1 url1 n)) = fst (fst (fetch_game_json e2 url2 n)).
Proof.
  unfold fetch_game_json. destruct n as [e|status etag body]; [reflexivity|].
  destruct (status =? 304); [reflexivity|].
  destruct (400 <=? status); [reflexivity|].
  destruct body; reflexivity.
Qed.

Lemma tick_observes_ext env w1 w2 :
  CURRENT_GAME_URL w1 = CURRENT_GAME_URL w2 ->
  LAST_TURN_PLAYER w1 = LAST_TURN_PLAYER w2 ->
  tick_observes env w1 = tick_observes env w2.
Proof.
  intros Hu Hl. unfold tick_observes. rewrite Hu.
  rewrite (fetch_result_ignores_etags (ETAG_CACHE w1) (ETAG_CACHE w2)
             (default "" (CURRENT_GAME_URL w2)) (default "" (CURRENT_GAME_URL w2))).
  destruct (truthy_str _); [|reflexivity].
  destruct (fst (fst _)) as [data|e]; [|reflexivity].
  unfold observed_player. rewrite Hl. reflexivity.
Qed.

(** A tick that gets nowhere (no URL, failed fetch, no player in the
    payload) touches neither the turn nor the reminders. *)
Lemma monitor_not_observing env w :
  tick_observes env w = None ->
  let '(r, w', evs) := monitor_game_state env w in
  r = Return tt /\
  CURRENT_GAME_URL w' = CURRENT_GAME_URL w /\
  LAST_TURN_PLAYER w' = LAST_TURN_PLAYER w /\ MAIN_CHAT_ID w' = MAIN_CHAT_ID w /\
  NOTIFY_PAUSED w' = NOTIFY_PAUSED w /\
  AVAILABLE_NATIONS w' = AVAILABLE_NATIONS w /\
  PLAYER_NOTIFICATION_STATE w' = PLAYER_NOTIFICATION_STATE w /\
  STATE_FILE w' = STATE_FILE w /\
  (forall e, e ∈ evs ->
     (exists url h, e = http_get url h) \/
     (exists chat ok, e = send_message chat error_server_down ok)).
Proof.
  unfold tick_observes. intros Hobs.
  destruct (truthy_str (CURRENT_GAME_URL w)) eqn:Hurl.
  - pose proof (fetch_requests_once (ETAG_CACHE w) (default "" (CURRENT_GAME_URL w)) (net env)) as Hr.
    destruct (fetch_game_json _ _ _) as [[r etags'] req] eqn:Hf. cbn in Hobs, Hr.
    destruct r as [data|e].
    + rewrite (monitor_fetched _ _ _ _ _ Hurl Hf). unfold handle_data.
      assert (Hd : observed_player (set_ETAG_CACHE etags' w) data = None) by exact Hobs.
      rewrite Hd. cbn. repeat split.
      intros e He. rewrite app_nil_r in He. subst req.
      apply list_elem_of_singleton in He. left. eauto.
    + rewrite (monitor_fetch_failed _ _ _ _ _ Hurl Hf).
      assert (Hreq : forall e0, e0 ∈ req ->
                (exists url h, e0 = http_get url h) \/
                (exists chat ok, e0 = send_message chat error_server_down ok)).
      { intros e0 He0. subst req. apply list_elem_of_singleton in He0. left. eauto. }
      destruct (MAIN_CHAT_ID w) as [chat|] eqn:Hchat;
        [destruct (negb (chat =? 0))|]; try (cbn; repeat split; assumption).
      pose proof (send_debounced_error_frame env chat error_server_down
                    (set_ETAG_CACHE etags' w)) as F. cbn in F.
      destruct F as (F1 & F2 & F3 & F4 & F5 & F6 & F7 & F8 & _ & F10).
      repeat split; try assumption; try congruence.
      intros e0 He0. apply elem_of_app in He0 as [He0|He0]; [auto|].
      destruct (send_debounced_error_events env chat error_server_down
                  (set_ETAG_CACHE etags' w)) as [E|[ok E]]; rewrite E in He0.
      * inversion He0.
      * apply list_elem_of_singleton in He0. right. eauto.
  - unfold monitor_game_state. rewrite Hurl. repeat split. intros e He. inversion He.
Qed.



Lemma reminders_app tr1 tr2 : reminders (tr1 ++ tr2) = reminders tr1 ++ reminders tr2.
Proof.
  induction tr1 as [|[env e] tr1 IH]; cbn; [reflexivity|].
  destruct e as [url h|chat m ok|m]; try exact IH.
  destruct (reminder_delay m); [cbn; f_equal|]; exact IH.
Qed.





(** ** A steady turn *)


Lemma run_ticks_cons env rest w :
  run_ticks (env :: rest) w
  = (fst (run_ticks rest (snd (fst (monitor_game_state env w)))),
     map (pair env) (snd (monitor_game_state env w))
     ++ snd (run_ticks rest (snd (fst (monitor_game_state env w))))).
Proof.
  cbn [run_ticks]. destruct (monitor_game_state env w) as [[r w1] evs].
  cbn [fst snd]. destruct (run_ticks rest w1). reflexivity.
Qed.









(** ** Resuming from a pause *)




(** Paused for 150 minutes with all three reminders pending: the tick
    after the resume sends none of them. *)
Example resume_sends_no_stale_reminder :
  let w := set_NOTIFY_PAUSED true demo_world in
  let w' := fst (pause_notifications (seconds 9000) (seconds 9000) true w) in
  let env := tick_at 9060 (response 200 (Some "v1")
                             (body_json (DocDict (demo_payload "Rome" None)))) in
  sends (snd (monitor_game_state env w')) = [] /\
  sends (snd (monitor_game_state env demo_world))
  = [send_message 7 (notify_reminder_no_ping "Rome" (timedelta 0 10)) true].
Proof. split; vm_compute; reflexivity. Qed.

(** ** A reminder entry without a usable last_reminded_time *)

Lemma payload_ignores_volatile w pns etags errs file :
  payload (set_STATE_FILE file
             (set_last_error_time_by_chat errs
                (set_ETAG_CACHE etags (set_PLAYER_NOTIFICATION_STATE pns w))))
  = payload w.
Proof. reflexivity. Qed.




(** A string that is not an ISO date is not repaired: fromisoformat raises
    and the tick ends with that exception. *)
Example malformed_last_reminded_raises :
  let w := set_PLAYER_NOTIFICATION_STATE
             {[ "ROME" := {| last_turn_change_time := TIso 0; next_reminder_index := 0;
                             last_reminded_time := TBadStr |} ]} demo_world in
  let env := tick_at 60 (response 200 (Some "v1")
                           (body_json (DocDict (demo_payload "Rome" None)))) in
  fst (fst (monitor_game_state env w)) = Raise ValueError.
Proof. reflexivity. Qed.

(** ** The roster *)

Lemma check_reminder_keeps_roster env p chat st w :
  AVAILABLE_NATIONS (snd (fst (check_reminder env p chat st w))) = AVAILABLE_NATIONS w.
Proof.
  unfold check_reminder.
  destruct (last_reminded_time st); cbn beta iota zeta; try reflexivity;
    (destruct (REMINDER_SCHEDULE !! _); [|reflexivity]);
    (destruct (_ <=? _); [|reflexivity]);
    destruct (disk_ok env); reflexivity.
Qed.







(** ** Debounced error notices *)














(** [load_state] assigns the persisted globals only. *)
Lemma load_state_frame w ok w' :
  load_state w = Some (ok, w') ->
  last_error_time_by_chat w' = last_error_time_by_chat w /\
  NOTIFY_PAUSED w' = NOTIFY_PAUSED w /\
  AVAILABLE_NATIONS w' = AVAILABLE_NATIONS w /\
  PLAYER_NOTIFICATION_STATE w' = PLAYER_NOTIFICATION_STATE w /\
  ETAG_CACHE w' = ETAG_CACHE w.
Proof.
  unfold load_state.
  destruct (STATE_FILE w) as [| |[| | |kv]];
    try solve [intros H; inversion H; subst; repeat split].
  destruct (read_opt_str _); [|discriminate].
  destruct (read_opt_str _); [|discriminate].
  destruct (read_opt_int _); [|discriminate].
  destruct (read_logins _); [|discriminate].
  destruct (read_opt_str _); [|discriminate].
  destruct (read_str _ _); [|discriminate].
  destruct (read_int _ _); [|discriminate].
  intros H; inversion H; subst; repeat split.
Qed.




(** Five minutes of failing ticks, one a minute from second 300 on: one
    notice at second 300, the next at second 600. *)
Example error_notices_every_window :
  let down := no_response TimeoutError in
  error_times 7
    (snd (run_ticks (map (fun k => tick_at (60 * Z.of_nat k) down) (seq 5 7)) demo_world))
  = [inject_Z 300; inject_Z 600].
Proof. vm_compute. reflexivity. Qed.

(* ================================================================== *)
(** * Further properties of the code *)

(** ** Names *)

Lemma upper_ascii_idempotent c : upper_ascii (upper_ascii c) = upper_ascii c.
Proof. destruct c as [[] [] [] [] [] [] [] []]; reflexivity. Qed.

Lemma upper_idempotent s : upper (upper s) = upper s.
Proof.
  induction s as [|c s IH]; cbn; [reflexivity|].
  rewrite upper_ascii_idempotent, IH. reflexivity.
Qed.

Lemma upper_empty s : upper s = "" -> s = "".
Proof. destruct s; [reflexivity|discriminate]. Qed.

Lemma upper_nonempty s : s <> "" -> upper s <> "".
Proof. intros H Hu. apply H, upper_empty, Hu. Qed.

(** X1.  [normalize] is idempotent: a normalized name normalizes to itself,
    and [None] and the empty string are left as they are. *)
Theorem normalize_idempotent (n : option string) :
  normalize (normalize n) = normalize n.
Proof.
  destruct n as [s|]; [|reflexivity]. cbn.
  destruct (String.eqb_spec s "") as [->|Hne]; [reflexivity|]. cbn.
  destruct (String.eqb_spec (upper s) "") as [He|_].
  - rewrite He. reflexivity.
  - rewrite upper_idempotent. reflexivity.
Qed.

Lemma get_raw_nation_name_upper (nations : list string) (k : string) :
  upper k = k ->
  upper (get_raw_nation_name nations k) = k /\
  (In (get_raw_nation_name nations k) nations \/
   (get_raw_nation_name nations k = k /\ forall n, In n nations -> upper n <> k)).
Proof.
  intros Hk. unfold get_raw_nation_name.
  destruct (List.find (fun n => String.eqb (upper n) k) nations) as [n|] eqn:Hf.
  - apply List.find_some in Hf as [Hin Heq]. apply String.eqb_eq in Heq.
    split; [exact Heq|left; exact Hin].
  - split; [exact Hk|]. right. split; [reflexivity|].
    intros n Hin Heq. pose proof (List.find_none _ _ Hf n Hin) as Hn. cbn in Hn.
    apply String.eqb_neq in Hn. contradiction.
Qed.

(** X2.  For a normalized key, [get_raw_nation_name] answers with a name
    that normalizes back to the key: a nation of the roster when one
    matches, else the key itself. *)
Theorem get_raw_nation_name_normalizes_back (nations : list string) (k : string) :
  upper k = k ->
  upper (get_raw_nation_name nations k) = k /\
  (In (get_raw_nation_name nations k) nations \/
   (get_raw_nation_name nations k = k /\ forall n, In n nations -> upper n <> k)).
Proof. exact (get_raw_nation_name_upper nations k). Qed.

Lemma get_raw_nation_name_normalizes_back_witness :
  upper "EGYPT" = "EGYPT" /\
  upper (get_raw_nation_name ["Rome"; "Egypt"] "EGYPT") = "EGYPT" /\
  (In (get_raw_nation_name ["Rome"; "Egypt"] "EGYPT") ["Rome"; "Egypt"] \/
   (get_raw_nation_name ["Rome"; "Egypt"] "EGYPT" = "EGYPT" /\
    forall n, In n ["Rome"; "Egypt"] -> upper n <> "EGYPT")).
Proof.
  split; [reflexivity|].
  exact (get_raw_nation_name_normalizes_back ["Rome"; "Egypt"] "EGYPT" eq_refl).
Defined.

(** ** The ETag cache *)

(** X3.  Once a response with a usable status carries a non-empty ETag, the
    cache holds it for that URL, whether or not the body could then be
    read, and the next request for the URL sends it as If-None-Match; the
    tags of other URLs are not touched. *)
Theorem etag_cached_before_body_and_sent_next
    (etags : gmap string string) (url : string) (status : Z) (e : string)
    (body : Body) (n2 : NetResult) :
  status <> 304 -> status < 400 -> e <> "" ->
  let etags' := snd (fst (fetch_game_json etags url (response status (Some e) body))) in
  etags' !! url = Some e /\
  (forall u, u <> url -> etags' !! u = etags !! u) /\
  snd (fetch_game_json etags' url n2) = [http_get url (Some e)].
Proof.
  intros H304 H400 He. unfold fetch_game_json at 1.
  apply Z.eqb_neq in H304. rewrite H304.
  destruct (Z.leb_spec 400 status) as [?|_]; [lia|].
  apply String.eqb_neq in He. rewrite He.
  assert (Hc : snd (fst (match body with
                         | body_json d =>
                             (Return d, <[url:=e]> etags,
                              [http_get url
                                 (if truthy_str (etags !! url) then etags !! url else None)])
                         | body_raises e0 =>
                             (Raise e0, <[url:=e]> etags,
                              [http_get url
                                 (if truthy_str (etags !! url) then etags !! url else None)])
                         end)) = <[url:=e]> etags) by (destruct body; reflexivity).
  cbn zeta. rewrite Hc.
  split; [apply lookup_insert_eq|].
  split; [intros u Hu; apply lookup_insert_ne; congruence|].
  rewrite fetch_requests_once, lookup_insert_eq. cbn. rewrite He. reflexivity.
Qed.

Lemma etag_cached_before_body_and_sent_next_witness :
  200 <> 304 /\ 200 < 400 /\ "v1" <> "" /\
  let etags' := snd (fst (fetch_game_json ∅ "u"
                            (response 200 (Some "v1") (body_raises TimeoutError)))) in
  etags' !! "u" = Some "v1" /\
  (forall u, u <> "u" -> etags' !! u = (∅ : gmap string string) !! u) /\
  snd (fetch_game_json etags' "u" (no_response ClientError)) = [http_get "u" (Some "v1")].
Proof.
  assert (H1 : 200 <> 304) by discriminate.
  assert (H2 : 200 < 400) by reflexivity.
  assert (H3 : "v1" <> "") by discriminate.
  split; [exact H1|]. split; [exact H2|]. split; [exact H3|].
  exact (etag_cached_before_body_and_sent_next ∅ "u" 200 "v1"
           (body_raises TimeoutError) (no_response ClientError) H1 H2 H3).
Defined.

(** ** What a tick does and does not touch *)

(** A tick either gets nowhere or runs [handle_data] on a payload with a
    player. *)
Lemma monitor_decompose env w :
  tick_observes env w = None \/
  exists g raw data etags' h,
    tick_observes env w = Some (g, raw) /\
    observed_player (set_ETAG_CACHE etags' w) data = Some (g, raw) /\
    monitor_game_state env w
    = (fst (fst (handle_data env data (set_ETAG_CACHE etags' w))),
       snd (fst (handle_data env data (set_ETAG_CACHE etags' w))),
       [http_get (default "" (CURRENT_GAME_URL w)) h]
       ++ snd (handle_data env data (set_ETAG_CACHE etags' w))).
Proof.
  destruct (tick_observes env w) as [[g raw]|] eqn:Hobs; [right|left; reflexivity].
  destruct (tick_observes_inv _ _ _ _ Hobs) as (Hurl & data & etags' & h & Hf & Hd).
  exists g, raw, data, etags', h. split; [reflexivity|]. split; [exact Hd|].
  exact (monitor_fetched _ _ _ _ _ Hurl Hf).
Qed.

Lemma handle_data_observed env data w g raw :
  observed_player w data = Some (g, raw) ->
  handle_data env data w
  = match LAST_TURN_PLAYER w with
    | None => (Return tt, first_observation env g (upper raw) w, [])
    | Some last =>
        if negb (String.eqb (upper raw) last) then
          (Return tt, fst (turn_changed env g raw (upper raw) w),
           snd (turn_changed env g raw (upper raw) w))
        else
          match PLAYER_NOTIFICATION_STATE w !! upper raw, MAIN_CHAT_ID w with
          | Some st, Some chat =>
              if negb (chat =? 0) && negb (NOTIFY_PAUSED w)
              then check_reminder env (upper raw) chat st w
              else (Return tt, w, [])
          | _, _ => (Return tt, w, [])
          end
    end.
Proof.
  intros Hd. unfold handle_data. rewrite Hd.
  destruct (LAST_TURN_PLAYER w) as [last|]; [|reflexivity].
  destruct (negb (String.eqb (upper raw) last)); [|reflexivity].
  destruct (turn_changed env g raw (upper raw) w). reflexivity.
Qed.

(** The globals no branch of [handle_data] assigns. *)
Lemma handle_data_frame env data w :
  let w' := snd (fst (handle_data env data w)) in
  GAME_ID w' = GAME_ID w /\ CURRENT_GAME_URL w' = CURRENT_GAME_URL w /\
  MAIN_CHAT_ID w' = MAIN_CHAT_ID w /\ NOTIFY_PAUSED w' = NOTIFY_PAUSED w /\
  PLAYER_LOGINS w' = PLAYER_LOGINS w /\ BOT_LANGUAGE w' = BOT_LANGUAGE w /\
  MONITOR_INTERVAL_SECONDS_DEFAULT w' = MONITOR_INTERVAL_SECONDS_DEFAULT w /\
  ETAG_CACHE w' = ETAG_CACHE w.
Proof.
  destruct (observed_player w data) as [[g raw]|] eqn:Hd.
  - rewrite (handle_data_observed _ _ _ _ _ Hd).
    destruct (LAST_TURN_PLAYER w) as [last|].
    + destruct (negb (String.eqb (upper raw) last)).
      * unfold turn_changed. destruct (disk_ok env); cbn; repeat split.
      * destruct (PLAYER_NOTIFICATION_STATE w !! upper raw) as [st|];
          [|cbn; repeat split].
        destruct (MAIN_CHAT_ID w) as [chat|] eqn:Hc; [|cbn; repeat split; assumption].
        destruct (negb (chat =? 0) && negb (NOTIFY_PAUSED w));
          [|cbn; repeat split; assumption].
        unfold check_reminder.
        destruct (last_reminded_time st); cbn beta iota zeta;
          try (cbn; repeat split; assumption);
          (destruct (REMINDER_SCHEDULE !! _); [|cbn; repeat split; assumption]);
          (destruct (_ <=? _); [|cbn; repeat split; assumption]);
          destruct (disk_ok env); cbn; repeat split; assumption.
    + unfold first_observation.
      destruct (human_civs g) as [[|c hc]|e], (disk_ok env); cbn; repeat split.
  - unfold handle_data. rewrite Hd. cbn. repeat split.
Qed.

Lemma monitor_frame (env : TickEnv) (w : World) :
  let w' := snd (fst (monitor_game_state env w)) in
  GAME_ID w' = GAME_ID w /\ CURRENT_GAME_URL w' = CURRENT_GAME_URL w /\
  MAIN_CHAT_ID w' = MAIN_CHAT_ID w /\ NOTIFY_PAUSED w' = NOTIFY_PAUSED w /\
  PLAYER_LOGINS w' = PLAYER_LOGINS w /\ BOT_LANGUAGE w' = BOT_LANGUAGE w /\
  MONITOR_INTERVAL_SECONDS_DEFAULT w' = MONITOR_INTERVAL_SECONDS_DEFAULT w.
Proof.
  destruct (truthy_str (CURRENT_GAME_URL w)) eqn:Hurl.
  - destruct (fetch_game_json (ETAG_CACHE w) (default "" (CURRENT_GAME_URL w)) (net env))
      as [[r etags'] req] eqn:Hf.
    destruct r as [data|e].
    + rewrite (monitor_fetched _ _ _ _ _ Hurl Hf). cbn [fst snd].
      pose proof (handle_data_frame env data (set_ETAG_CACHE etags' w)) as F.
      cbn zeta in F. destruct F as (F1 & F2 & F3 & F4 & F5 & F6 & F7 & _).
      repeat split; assumption.
    + rewrite (monitor_fetch_failed _ _ _ _ _ Hurl Hf).
      destruct (MAIN_CHAT_ID w) as [chat|] eqn:Hc;
        [destruct (negb (chat =? 0))|]; cbn [fst snd]; try (cbn; repeat split; assumption).
      unfold send_debounced_error.
      destruct (Qle_bool _ _); [destruct (transport_ok env)|]; cbn; repeat split; assumption.
  - unfold monitor_game_state. rewrite Hurl. cbn. repeat split.
Qed.

(** X4.  A monitor tick never changes the game session, the main chat, the
    pause flag, the subscriptions, the language or the interval, whatever
    the network, the clock, the transport and the disk do. *)
Theorem tick_keeps_session_and_subscriptions (env : TickEnv) (w : World) :
  let w' := snd (fst (monitor_game_state env w)) in
  GAME_ID w' = GAME_ID w /\ CURRENT_GAME_URL w' = CURRENT_GAME_URL w /\
  MAIN_CHAT_ID w' = MAIN_CHAT_ID w /\ NOTIFY_PAUSED w' = NOTIFY_PAUSED w /\
  PLAYER_LOGINS w' = PLAYER_LOGINS w /\ BOT_LANGUAGE w' = BOT_LANGUAGE w /\
  MONITOR_INTERVAL_SECONDS_DEFAULT w' = MONITOR_INTERVAL_SECONDS_DEFAULT w.
Proof. exact (monitor_frame env w). Qed.

(** [handle_data] sends nothing, or one turn-change or reminder text to the
    main chat, and then only when notifications are not paused. *)
Lemma handle_data_events env data w :
  snd (handle_data env data w) = [] \/
  exists c m, snd (handle_data env data w) = [send_message c m (transport_ok env)] /\
              MAIN_CHAT_ID w = Some c /\ c <> 0 /\ NOTIFY_PAUSED w = false /\
              m <> error_server_down.
Proof.
  destruct (observed_player w data) as [[g raw]|] eqn:Hd;
    [|left; unfold handle_data; rewrite Hd; reflexivity].
  rewrite (handle_data_observed _ _ _ _ _ Hd).
  destruct (LAST_TURN_PLAYER w) as [last|]; [|left; reflexivity].
  assert (Hguard : forall chat, negb (chat =? 0) && negb (NOTIFY_PAUSED w) = true ->
                                chat <> 0 /\ NOTIFY_PAUSED w = false).
  { intros chat H. apply andb_true_iff in H as [H1 H2].
    apply negb_true_iff in H1, H2. apply Z.eqb_neq in H1. split; assumption. }
  destruct (negb (String.eqb (upper raw) last)).
  - unfold turn_changed. cbn [fst snd]. world_simpl.
    destruct (MAIN_CHAT_ID w) as [chat|]; [|left; reflexivity].
    destruct (negb (chat =? 0) && negb (NOTIFY_PAUSED w)) eqn:Hg; [|left; reflexivity].
    destruct (Hguard chat Hg) as [H1 H2].
    right. eexists chat, _. split; [reflexivity|]. repeat split; try assumption.
    unfold turn_change_text. destruct (truthy_str _); discriminate.
  - destruct (PLAYER_NOTIFICATION_STATE w !! upper raw) as [st|]; [|left; reflexivity].
    destruct (MAIN_CHAT_ID w) as [chat|]; [|left; reflexivity].
    destruct (negb (chat =? 0) && negb (NOTIFY_PAUSED w)) eqn:Hg; [|left; reflexivity].
    destruct (Hguard chat Hg) as [H1 H2].
    unfold check_reminder.
    destruct (last_reminded_time st); cbn beta iota zeta; try (left; reflexivity);
      (destruct (REMINDER_SCHEDULE !! _); [|left; reflexivity]);
      (destruct (_ <=? _); [|left; reflexivity]);
      (right; eexists chat, _; split; [reflexivity|]; repeat split; try assumption;
       unfold reminder_text; destruct (truthy_str _); discriminate).
Qed.

(** X5.  A tick sends at most one message, and only to the main chat: none
    when no main chat is set; while notifications are paused the only
    message it can send is the server-down notice. *)
Theorem tick_sends_at_most_one_message (env : TickEnv) (w : World) :
  let evs := snd (monitor_game_state env w) in
  (sends evs = [] \/
   exists c m ok, sends evs = [send_message c m ok] /\ MAIN_CHAT_ID w = Some c /\ c <> 0 /\
                  (NOTIFY_PAUSED w = true -> m = error_server_down)).
Proof.
  destruct (truthy_str (CURRENT_GAME_URL w)) eqn:Hurl.
  - pose proof (fetch_requests_once (ETAG_CACHE w) (default "" (CURRENT_GAME_URL w)) (net env)) as Hr.
    destruct (fetch_game_json (ETAG_CACHE w) (default "" (CURRENT_GAME_URL w)) (net env))
      as [[r etags'] req] eqn:Hf. cbn [snd] in Hr. subst req.
    destruct r as [data|e].
    + rewrite (monitor_fetched _ _ _ _ _ Hurl Hf). cbn [fst snd]. rewrite sends_request.
      destruct (handle_data_events env data (set_ETAG_CACHE etags' w))
        as [E|(c & m & E & Hc & Hne & Hp & Hm)]; rewrite E.
      * left. reflexivity.
      * right. exists c, m, (transport_ok env). split; [reflexivity|].
        split; [exact Hc|]. split; [exact Hne|].
        intros Hpaused. cbn in Hp. congruence.
    + rewrite (monitor_fetch_failed _ _ _ _ _ Hurl Hf).
      destruct (MAIN_CHAT_ID w) as [chat|] eqn:Hc; [|left; reflexivity].
      destruct (Z.eqb_spec chat 0) as [->|Hne]; [left; reflexivity|].
      cbn [negb fst snd]. rewrite sends_request.
      destruct (send_debounced_error_events env chat error_server_down
                  (set_ETAG_CACHE etags' w)) as [E|[ok E]]; rewrite E.
      * left. reflexivity.
      * right. exists chat, error_server_down, ok. repeat split; assumption.
  - left. unfold monitor_game_state. rewrite Hurl. reflexivity.
Qed.






Lemma set_ETAG_CACHE_same w : set_ETAG_CACHE (ETAG_CACHE w) w = w.
Proof. destruct w; reflexivity. Qed.

(** A 304 while no last player is known: nothing happens but the request. *)
Lemma monitor_not_modified_unobserved env w status_etag body :
  net env = response 304 status_etag body ->
  truthy_str (LAST_TURN_PLAYER w) = false ->
  monitor_game_state env w = (Return tt, w, [])
  \/ exists url h, monitor_game_state env w = (Return tt, w, [http_get url h]).
Proof.
  intros Hnet Hlast.
  destruct (truthy_str (CURRENT_GAME_URL w)) eqn:Hurl.
  - right. eexists _, _.
    assert (Hf : fetch_game_json (ETAG_CACHE w) (default "" (CURRENT_GAME_URL w)) (net env)
                 = (Return not_modified_dict, ETAG_CACHE w,
                    [http_get (default "" (CURRENT_GAME_URL w))
                       (if truthy_str (ETAG_CACHE w !! default "" (CURRENT_GAME_URL w))
                        then ETAG_CACHE w !! default "" (CURRENT_GAME_URL w) else None)]))
      by (rewrite Hnet; reflexivity).
    rewrite (monitor_fetched _ _ _ _ _ Hurl Hf), set_ETAG_CACHE_same.
    unfold handle_data, observed_player, not_modified_dict. cbn [not_modified].
    destruct (LAST_TURN_PLAYER w) as [p|]; [|reflexivity].
    cbn in Hlast. apply negb_false_iff in Hlast. rewrite Hlast. reflexivity.
  - left. unfold monitor_game_state. rewrite Hurl. reflexivity.
Qed.

(** X8.  As long as no player has been observed, ticks answered 304 Not
    Modified are no-ops, however many there are: the globals and the state
    file stay exactly as they were and nothing is sent. *)
Theorem not_modified_before_first_observation_is_noop
    (envs : list TickEnv) (w : World) :
  truthy_str (LAST_TURN_PLAYER w) = false ->
  (forall env, In env envs -> exists etag body, net env = response 304 etag body) ->
  fst (run_ticks envs w) = w /\
  forall env e, In (env, e) (snd (run_ticks envs w)) -> is_send e = false.
Proof.
  intros Hlast. induction envs as [|env rest IH]; intros Hall.
  - split; [reflexivity|]. intros env e [].
  - destruct (Hall env (or_introl eq_refl)) as (etag & body & Hnet).
    rewrite run_ticks_cons. cbn [fst snd].
    destruct IH as [IH1 IH2]; [intros e He; apply Hall; right; exact He|].
    destruct (monitor_not_modified_unobserved env w etag body Hnet Hlast)
      as [Hm|(url & h & Hm)]; rewrite Hm; cbn [fst snd map app].
    + split; [exact IH1|exact IH2].
    + split; [exact IH1|].
      intros env' e [Heq|Hin]; [inversion Heq; reflexivity|exact (IH2 env' e Hin)].
Qed.

Lemma not_modified_before_first_observation_is_noop_witness :
  let envs := [tick_at 60 (response 304 None (body_json DocNull));
               tick_at 120 (response 304 None (body_json DocNull))] in
  truthy_str (LAST_TURN_PLAYER demo_world_unobserved) = false /\
  (forall env, In env envs -> exists etag body, net env = response 304 etag body) /\
  fst (run_ticks envs demo_world_unobserved) = demo_world_unobserved /\
  forall env e, In (env, e) (snd (run_ticks envs demo_world_unobserved)) ->
                is_send e = false.
Proof.
  intros envs.
  assert (H2 : forall env, In env envs -> exists etag body, net env = response 304 etag body).
  { intros env [<-|[<-|[]]]; eexists _, _; reflexivity. }
  split; [reflexivity|]. split; [exact H2|].
  exact (not_modified_before_first_observation_is_noop envs demo_world_unobserved
           eq_refl H2).
Defined.

(** ** Reminder entries *)

(** The reminder block rewrites its entry at most: the time becomes a
    parsed one, the index stays or moves up by one inside the schedule. *)
Lemma check_reminder_entries env p chat st w :
  PLAYER_NOTIFICATION_STATE (snd (fst (check_reminder env p chat st w)))
  = PLAYER_NOTIFICATION_STATE w \/
  exists st', PLAYER_NOTIFICATION_STATE (snd (fst (check_reminder env p chat st w)))
              = <[p := st']> (PLAYER_NOTIFICATION_STATE w) /\
              (exists t, last_reminded_time st' = TIso t) /\
              (next_reminder_index st' = next_reminder_index st \/
               (next_reminder_index st' = S (next_reminder_index st) /\
                (next_reminder_index st < length REMINDER_SCHEDULE)%nat)).
Proof.
  unfold check_reminder.
  destruct (last_reminded_time st) eqn:Hl; cbn beta iota zeta;
    cbn [next_reminder_index last_turn_change_time].
  - destruct (REMINDER_SCHEDULE !! next_reminder_index st) eqn:Hd; [|left; reflexivity].
    destruct (_ <=? _); [|left; reflexivity].
    right. eexists. split; [destruct (disk_ok env); reflexivity|].
    split; [eexists; reflexivity|]. right. split; [reflexivity|].
    apply lookup_lt_Some in Hd. exact Hd.
  - left. reflexivity.
  - destruct (REMINDER_SCHEDULE !! next_reminder_index st) eqn:Hd.
    + destruct (_ <=? _).
      * right. eexists. split.
        { destruct (disk_ok env); world_simpl; apply insert_insert_eq. }
        split; [eexists; reflexivity|]. right. split; [reflexivity|].
        apply lookup_lt_Some in Hd. exact Hd.
      * right. eexists. split; [reflexivity|].
        split; [eexists; reflexivity|]. left. reflexivity.
    + right. eexists. split; [reflexivity|].
      split; [eexists; reflexivity|]. left. reflexivity.
Qed.

(** [handle_data] writes the entry of the player it sees, and no other. *)
Lemma handle_data_entries env data w g raw :
  observed_player w data = Some (g, raw) ->
  PLAYER_NOTIFICATION_STATE (snd (fst (handle_data env data w)))
  = PLAYER_NOTIFICATION_STATE w \/
  exists st', PLAYER_NOTIFICATION_STATE (snd (fst (handle_data env data w)))
              = <[upper raw := st']> (PLAYER_NOTIFICATION_STATE w) /\
              (exists t, last_reminded_time st' = TIso t) /\
              (next_reminder_index st' = 0%nat \/
               exists st, PLAYER_NOTIFICATION_STATE w !! upper raw = Some st /\
                 (next_reminder_index st' = next_reminder_index st \/
                  (next_reminder_index st' = S (next_reminder_index st) /\
                   (next_reminder_index st < length REMINDER_SCHEDULE)%nat))).
Proof.
  intros Hd. rewrite (handle_data_observed _ _ _ _ _ Hd).
  destruct (LAST_TURN_PLAYER w) as [last|].
  - destruct (negb (String.eqb (upper raw) last)).
    + right. exists (fresh_reminder (current_turn_time env g)).
      split; [unfold turn_changed; destruct (disk_ok env); reflexivity|].
      split; [eexists; reflexivity|left; reflexivity].
    + destruct (PLAYER_NOTIFICATION_STATE w !! upper raw) as [st|] eqn:Hst;
        [|left; reflexivity].
      destruct (MAIN_CHAT_ID w) as [chat|]; [|left; reflexivity].
      destruct (negb (chat =? 0) && negb (NOTIFY_PAUSED w)); [|left; reflexivity].
      destruct (check_reminder_entries env (upper raw) chat st w)
        as [E|(st' & E & Ht & Hi)]; [left; exact E|].
      right. exists st'. split; [exact E|]. split; [exact Ht|].
      right. exists st. split; [reflexivity|exact Hi].
  - right. exists (fresh_reminder (current_turn_time env g)).
    split.
    + unfold first_observation.
      destruct (human_civs g) as [[|c hc]|e], (disk_ok env); reflexivity.
    + split; [eexists; reflexivity|left; reflexivity].
Qed.

(** The reminder table after any tick. *)
Lemma monitor_entries env w :
  PLAYER_NOTIFICATION_STATE (snd (fst (monitor_game_state env w)))
  = PLAYER_NOTIFICATION_STATE w \/
  exists g raw st',
    tick_observes env w = Some (g, raw) /\
    PLAYER_NOTIFICATION_STATE (snd (fst (monitor_game_state env w)))
    = <[upper raw := st']> (PLAYER_NOTIFICATION_STATE w) /\
    (exists t, last_reminded_time st' = TIso t) /\
    (next_reminder_index st' = 0%nat \/
     exists st, PLAYER_NOTIFICATION_STATE w !! upper raw = Some st /\
       (next_reminder_index st' = next_reminder_index st \/
        (next_reminder_index st' = S (next_reminder_index st) /\
         (next_reminder_index st < length REMINDER_SCHEDULE)%nat))).
Proof.
  destruct (monitor_decompose env w) as [Hnone|(g & raw & data & etags' & h & Hobs & Hd & Hm)].
  - left. pose proof (monitor_not_observing env w Hnone) as H.
    destruct (monitor_game_state env w) as [[r w'] evs]. apply H.
  - rewrite Hm. cbn [fst snd].
    destruct (handle_data_entries env data (set_ETAG_CACHE etags' w) g raw Hd)
      as [E|(st' & E & H)]; [left; exact E|].
    right. exists g, raw, st'. split; [exact Hobs|]. split; [exact E|exact H].
Qed.

(** X9.  A tick writes at most one reminder entry, that of the player it
    sees: the entry of any other player is left exactly as it was, and no
    entry is ever removed. *)
Theorem tick_touches_only_current_entry (env : TickEnv) (w : World) (k : string) :
  ((forall g raw, tick_observes env w = Some (g, raw) -> upper raw <> k) ->
   PLAYER_NOTIFICATION_STATE (snd (fst (monitor_game_state env w))) !! k
   = PLAYER_NOTIFICATION_STATE w !! k) /\
  (is_Some (PLAYER_NOTIFICATION_STATE w !! k) ->
   is_Some (PLAYER_NOTIFICATION_STATE (snd (fst (monitor_game_state env w))) !! k)).
Proof.
  destruct (monitor_entries env w) as [E|(g & raw & st' & Hobs & E & _)]; rewrite E.
  - split; [reflexivity|auto].
  - split.
    + intros Hother. apply lookup_insert_ne. exact (Hother g raw Hobs).
    + intros Hsome. destruct (decide (upper raw = k)) as [->|Hne].
      * rewrite lookup_insert_eq. eauto.
      * rewrite lookup_insert_ne by exact Hne. exact Hsome.
Qed.

(** A tick of the same turn whose player has no reminder entry. *)
Lemma monitor_without_entry env w p :
  LAST_TURN_PLAYER w = Some p ->
  PLAYER_NOTIFICATION_STATE w !! p = None ->
  (forall g raw, tick_observes env w = Some (g, raw) -> upper raw = p) ->
  let '(r, w', evs) := monitor_game_state env w in
  CURRENT_GAME_URL w' = CURRENT_GAME_URL w /\
  LAST_TURN_PLAYER w' = LAST_TURN_PLAYER w /\
  PLAYER_NOTIFICATION_STATE w' = PLAYER_NOTIFICATION_STATE w /\
  (forall e, e ∈ evs ->
     (exists url h, e = http_get url h) \/
     (exists chat ok, e = send_message chat error_server_down ok)).
Proof.
  intros Hlast Hnone Hsame.
  destruct (monitor_decompose env w) as [Hno|(g & raw & data & etags' & h & Hobs & Hd & Hm)].
  - pose proof (monitor_not_observing env w Hno) as H.
    destruct (monitor_game_state env w) as [[r w'] evs].
    destruct H as (_ & Hu & Hl & _ & _ & _ & Hpns & _ & Hev). auto.
  - specialize (Hsame g raw Hobs). subst p.
    rewrite Hm, (handle_data_observed _ _ _ _ _ Hd). world_simpl.
    rewrite Hlast, String.eqb_refl, Hnone. cbn.
    repeat split; try assumption.
    intros e He. apply list_elem_of_singleton in He. left. eauto.
Qed.

(** X10.  After a restart the reminder table is empty, so for the turn
    that was in progress no reminder is ever sent, however long it lasts:
    as long as the restored last player keeps the turn, the only messages
    ticks send are server-down notices. *)
Theorem restart_silences_reminders_of_current_turn
    (cfg : Config) (w w' : World) (ok : bool) (p : string) (envs : list TickEnv) :
  restart cfg w = Some (ok, w') ->
  LAST_TURN_PLAYER w' = Some p ->
  (forall env g raw, In env envs -> tick_observes env w' = Some (g, raw) -> upper raw = p) ->
  reminders (snd (run_ticks envs w')) = [] /\
  forall env e, In (env, e) (snd (run_ticks envs w')) -> is_send e = true ->
                exists chat delivered, e = send_message chat error_server_down delivered.
Proof.
  intros Hre Hlast Hsame.
  assert (Hnone : PLAYER_NOTIFICATION_STATE w' !! p = None).
  { unfold restart in Hre. apply load_state_frame in Hre as (_ & _ & _ & Hp & _).
    rewrite Hp. reflexivity. }
  clear Hre. revert w' Hlast Hnone Hsame.
  induction envs as [|env rest IH]; intros w' Hlast Hnone Hsame.
  - split; [reflexivity|]. intros env e [].
  - pose proof (monitor_without_entry env w' p Hlast Hnone
                  (fun g raw => Hsame env g raw (or_introl eq_refl))) as H.
    rewrite run_ticks_cons.
    destruct (monitor_game_state env w') as [[r w1] evs].
    destruct H as (Hu & Hl & Hpns & Hev). cbn [fst snd].
    destruct (IH w1) as [IH1 IH2].
    { rewrite Hl. exact Hlast. }
    { rewrite Hpns. exact Hnone. }
    { intros e g raw He. rewrite (tick_observes_ext e w1 w' Hu Hl).
      apply Hsame. right. exact He. }
    assert (Hnow : forall e, In e evs ->
              (exists url h, e = http_get url h) \/
              (exists chat ok0, e = send_message chat error_server_down ok0)).
    { intros e He. apply Hev. apply list_elem_of_In. exact He. }
    split.
    + rewrite reminders_app, IH1, app_nil_r. clear -Hnow.
      induction evs as [|e evs IHe]; [reflexivity|]. cbn.
      destruct (Hnow e (or_introl eq_refl)) as [(url & h & ->)|(c & o & ->)]; cbn;
        apply IHe; intros e' He'; apply Hnow; right; exact He'.
    + intros env' e Hin Hsend. apply in_app_or in Hin as [Hin|Hin].
      * apply in_map_iff in Hin as (e0 & Heq & Hin0). inversion Heq; subst.
        destruct (Hnow e Hin0) as [(url & h & ->)|(c & o & ->)]; [discriminate|eauto].
      * exact (IH2 env' e Hin Hsend).
Qed.

Lemma restart_silences_reminders_of_current_turn_witness :
  let w' := snd (default (false, demo_world) (restart demo_config (save_state true demo_world))) in
  restart demo_config (save_state true demo_world) = Some (true, w') /\
  LAST_TURN_PLAYER w' = Some "ROME" /\
  (forall env g raw, In env (minutely 110) -> tick_observes env w' = Some (g, raw) ->
                     upper raw = "ROME") /\
  reminders (snd (run_ticks (minutely 110) w')) = [] /\
  forall env e, In (env, e) (snd (run_ticks (minutely 110) w')) -> is_send e = true ->
                exists chat delivered, e = send_message chat error_server_down delivered.
Proof.
  intros w'.
  assert (H1 : restart demo_config (save_state true demo_world) = Some (true, w'))
    by reflexivity.
  assert (H3 : forall env g raw, In env (minutely 110) ->
                 tick_observes env w' = Some (g, raw) -> upper raw = "ROME").
  { intros env g raw Hin. unfold minutely in Hin.
    apply in_map_iff in Hin as (k & <- & _). intros H. cbv in H. inversion H. reflexivity. }
  split; [exact H1|]. split; [reflexivity|]. split; [exact H3|].
  exact (restart_silences_reminders_of_current_turn demo_config
           (save_state true demo_world) w' true "ROME" (minutely 110) H1 eq_refl H3).
Defined.

(** ** /pause *)

(** X11.  [/pause] flips the flag and assigns no other global, except that
    a resume with a known player rewrites that player's reminder entry;
    pausing leaves the whole reminder table as it is.  The snapshot it
    writes is the one that was already there to write: the flag is not part
    of it. *)
Theorem pause_flips_flag_only (now1 now2 : Z) (disk : bool) (w : World) :
  let w' := fst (pause_notifications now1 now2 disk w) in
  NOTIFY_PAUSED w' = negb (NOTIFY_PAUSED w) /\
  GAME_ID w' = GAME_ID w /\ CURRENT_GAME_URL w' = CURRENT_GAME_URL w /\
  LAST_TURN_PLAYER w' = LAST_TURN_PLAYER w /\ MAIN_CHAT_ID w' = MAIN_CHAT_ID w /\
  AVAILABLE_NATIONS w' = AVAILABLE_NATIONS w /\ PLAYER_LOGINS w' = PLAYER_LOGINS w /\
  payload w' = payload w /\
  (NOTIFY_PAUSED w = false ->
   PLAYER_NOTIFICATION_STATE w' = PLAYER_NOTIFICATION_STATE w) /\
  (forall k, LAST_TURN_PLAYER w <> Some k ->
   PLAYER_NOTIFICATION_STATE w' !! k = PLAYER_NOTIFICATION_STATE w !! k) /\
  NOTIFY_PAUSED (fst (pause_notifications now2 now2 disk w')) = NOTIFY_PAUSED w.
Proof.
  unfold pause_notifications. world_simpl.
  destruct (NOTIFY_PAUSED w) eqn:Hp; cbn [negb].
  - destruct (LAST_TURN_PLAYER w) as [last|] eqn:Hlast.
    + destruct (String.eqb last ""); cbn [negb andb]; destruct disk; world_simpl;
        repeat split; try discriminate; try assumption;
        try (intros k Hk; apply lookup_insert_ne; congruence).
    + destruct disk; world_simpl; repeat split; try assumption; discriminate.
  - destruct disk; world_simpl; cbn [negb];
      destruct (LAST_TURN_PLAYER w) as [last|];
      try destruct (String.eqb last ""); cbn [negb andb]; world_simpl; repeat split.
Qed.

(** ** Subscriptions *)

Section DictUpdates.
Context {V : Type}.
Implicit Types (d : list (string * V)) (k : string).

Lemma dict_get_has_key k d : has_key k d = false -> dict_get k d = None.
Proof.
  induction d as [|[k' v'] d IH]; cbn; [reflexivity|].
  destruct (String.eqb k k'); cbn; [discriminate|exact IH].
Qed.

Lemma dict_get_set_eq k (v : V) d : dict_get k (dict_set k v d) = Some v.
Proof.
  induction d as [|[k' v'] d IH]; cbn; [rewrite String.eqb_refl; reflexivity|].
  destruct (String.eqb k k') eqn:E; cbn; rewrite E; [reflexivity|exact IH].
Qed.

Lemma dict_get_set_ne k k' (v : V) d :
  k <> k' -> dict_get k' (dict_set k v d) = dict_get k' d.
Proof.
  intros Hne. induction d as [|[k0 v0] d IH]; cbn.
  - destruct (String.eqb_spec k' k); [congruence|reflexivity].
  - destruct (String.eqb_spec k k0) as [->|Hk]; cbn.
    + destruct (String.eqb_spec k' k0); [congruence|reflexivity].
    + destruct (String.eqb k' k0); [reflexivity|exact IH].
Qed.

Lemma has_key_set k k' (v : V) d :
  has_key k' (dict_set k v d) = String.eqb k' k || has_key k' d.
Proof.
  induction d as [|[k0 v0] d IH]; cbn; [destruct (String.eqb k' k); reflexivity|].
  destruct (String.eqb_spec k k0) as [->|Hk]; cbn.
  - destruct (String.eqb k' k0); reflexivity.
  - rewrite IH. destruct (String.eqb k' k0), (String.eqb k' k); reflexivity.
Qed.

Lemma unique_keys_set k (v : V) d :
  unique_keys d = true -> unique_keys (dict_set k v d) = true.
Proof.
  induction d as [|[k0 v0] d IH]; cbn; [reflexivity|].
  intros H. apply andb_true_iff in H as [H1 H2].
  destruct (String.eqb_spec k k0) as [->|Hk]; cbn.
  - rewrite H1, H2. reflexivity.
  - rewrite has_key_set, (IH H2).
    apply negb_true_iff in H1. rewrite H1.
    destruct (String.eqb_spec k0 k); [congruence|reflexivity].
Qed.

Lemma has_key_del k k' d :
  has_key k' (dict_del k d) = true -> has_key k' d = true.
Proof.
  induction d as [|[k0 v0] d IH]; cbn; [discriminate|].
  destruct (String.eqb k k0); cbn.
  - intros ->. apply orb_true_r.
  - destruct (String.eqb k' k0); [reflexivity|exact IH].
Qed.

Lemma unique_keys_del k d :
  unique_keys d = true -> unique_keys (dict_del k d) = true.
Proof.
  induction d as [|[k0 v0] d IH]; cbn; [reflexivity|].
  intros H. apply andb_true_iff in H as [H1 H2].
  destruct (String.eqb k k0); cbn; [exact H2|].
  rewrite (IH H2), andb_true_r. apply negb_true_iff.
  apply negb_true_iff in H1.
  destruct (has_key k0 (dict_del k d)) eqn:E; [|reflexivity].
  apply has_key_del in E. congruence.
Qed.

Lemma dict_get_del_ne k k' d :
  k <> k' -> dict_get k' (dict_del k d) = dict_get k' d.
Proof.
  intros Hne. induction d as [|[k0 v0] d IH]; cbn; [reflexivity|].
  destruct (String.eqb_spec k k0) as [->|Hk]; cbn.
  - destruct (String.eqb_spec k' k0); [congruence|reflexivity].
  - destruct (String.eqb k' k0); [reflexivity|exact IH].
Qed.

Lemma dict_get_del_eq k d :
  unique_keys d = true -> dict_get k (dict_del k d) = None.
Proof.
  induction d as [|[k0 v0] d IH]; cbn; [reflexivity|].
  intros H. apply andb_true_iff in H as [H1 H2].
  destruct (String.eqb_spec k k0) as [->|Hk]; cbn.
  - apply dict_get_has_key. apply negb_true_iff in H1. exact H1.
  - destruct (String.eqb_spec k k0); [congruence|exact (IH H2)].
Qed.

Lemma dict_del_app_fresh k (v : V) d1 d2 :
  has_key k d1 = false -> dict_del k (d1 ++ (k, v) :: d2) = d1 ++ d2.
Proof.
  induction d1 as [|[k0 v0] d1 IH]; cbn.
  - intros _. rewrite String.eqb_refl. reflexivity.
  - destruct (String.eqb k k0); cbn; [discriminate|].
    intros H. rewrite (IH H). reflexivity.
Qed.
End DictUpdates.

Lemma find_app_first {A} (f : A -> bool) l1 x l2 :
  (forall y, In y l1 -> f y = false) -> f x = true ->
  List.find f (l1 ++ x :: l2) = Some x.
Proof.
  intros Hl1 Hx. induction l1 as [|y l1 IH]; cbn.
  - rewrite Hx. reflexivity.
  - rewrite (Hl1 y (or_introl eq_refl)). apply IH.
    intros z Hz. apply Hl1. right. exact Hz.
Qed.

(** The successful path of [/subscribe]. *)
Lemma subscribe_found chat args disk w l1 found l2 :
  (2 <= length args)%nat ->
  String.prefix "@" (List.last args "") = true ->
  AVAILABLE_NATIONS w = l1 ++ found :: l2 ->
  (forall n, In n l1 ->
     contains (upper (join_space (removelast args))) (upper n) = false) ->
  contains (upper (join_space (removelast args))) (upper found) = true ->
  found <> "" ->
  subscribe chat args disk w
  = (save_state disk
       (set_PLAYER_LOGINS
          (dict_set (upper found) (List.last args "") (PLAYER_LOGINS w))
          (match chat with Some c => set_MAIN_CHAT_ID (Some c) w | None => w end)),
     subscribe_success found (List.last args "")).
Proof.
  intros Hlen Hat Hroster Hl1 Hfound Hne. unfold subscribe.
  destruct (Nat.ltb_spec (length args) 2) as [?|_]; [lia|].
  rewrite Hat. cbn [negb].
  assert (Hr : AVAILABLE_NATIONS
                 (match chat with Some c => set_MAIN_CHAT_ID (Some c) w | None => w end)
               = l1 ++ found :: l2) by (destruct chat; exact Hroster).
  rewrite Hr, (find_app_first _ l1 found l2 Hl1 Hfound).
  apply String.eqb_neq in Hne. rewrite Hne.
  destruct chat; reflexivity.
Qed.

(** X12.  [/subscribe] with at least two words, the last one starting with
    "@": the login is stored under the normalized name of the first roster
    nation whose name contains the typed text (case-insensitively), also
    when a later nation matches better.  Looking that key up afterwards
    gives the login, every other subscription is as before, keys stay
    unique, the roster and the turn are not touched, and the state file is
    written. *)
Theorem subscribe_stores_login_under_first_match
    (chat : option Z) (args : list string) (disk : bool) (w : World)
    (l1 : list string) (found : string) (l2 : list string) :
  (2 <= length args)%nat ->
  String.prefix "@" (List.last args "") = true ->
  AVAILABLE_NATIONS w = l1 ++ found :: l2 ->
  (forall n, In n l1 ->
     contains (upper (join_space (removelast args))) (upper n) = false) ->
  contains (upper (join_space (removelast args))) (upper found) = true ->
  found <> "" ->
  let '(w', ans) := subscribe chat args disk w in
  ans = subscribe_success found (List.last args "") /\
  dict_get (upper found) (PLAYER_LOGINS w') = Some (List.last args "") /\
  (forall k, k <> upper found ->
             dict_get k (PLAYER_LOGINS w') = dict_get k (PLAYER_LOGINS w)) /\
  (unique_keys (PLAYER_LOGINS w) = true -> unique_keys (PLAYER_LOGINS w') = true) /\
  AVAILABLE_NATIONS w' = AVAILABLE_NATIONS w /\
  LAST_TURN_PLAYER w' = LAST_TURN_PLAYER w /\
  PLAYER_NOTIFICATION_STATE w' = PLAYER_NOTIFICATION_STATE w /\
  (disk = true -> STATE_FILE w' = JsonFile (payload w')).
Proof.
  intros Hlen Hat Hroster Hl1 Hfound Hne.
  rewrite (subscribe_found chat args disk w l1 found l2 Hlen Hat Hroster Hl1 Hfound Hne).
  split; [reflexivity|].
  assert (Hl : PLAYER_LOGINS
                 (save_state disk
                    (set_PLAYER_LOGINS
                       (dict_set (upper found) (List.last args "") (PLAYER_LOGINS w))
                       (match chat with Some c => set_MAIN_CHAT_ID (Some c) w | None => w end)))
               = dict_set (upper found) (List.last args "") (PLAYER_LOGINS w))
    by (destruct disk, chat; reflexivity).
  rewrite Hl.
  split; [apply dict_get_set_eq|].
  split; [intros k Hk; apply dict_get_set_ne; congruence|].
  split; [apply unique_keys_set|].
  split; [destruct disk, chat; reflexivity|].
  split; [destruct disk, chat; reflexivity|].
  split; [destruct disk, chat; reflexivity|].
  apply save_state_file.
Qed.

(** Romeo stands before Rome in the roster. *)
Lemma subscribe_stores_login_under_first_match_witness :
  let w := set_AVAILABLE_NATIONS ["Egypt"; "Romeo"; "Rome"] demo_world in
  let args := ["rome"; "@ann"] in
  (2 <= length args)%nat /\
  String.prefix "@" (List.last args "") = true /\
  AVAILABLE_NATIONS w = ["Egypt"] ++ "Romeo" :: ["Rome"] /\
  (forall n, In n ["Egypt"] ->
     contains (upper (join_space (removelast args))) (upper n) = false) /\
  contains (upper (join_space (removelast args))) (upper "Romeo") = true /\
  "Romeo" <> "" /\
  let '(w', ans) := subscribe (Some 7) args true w in
  ans = subscribe_success "Romeo" (List.last args "") /\
  dict_get (upper "Romeo") (PLAYER_LOGINS w') = Some (List.last args "") /\
  (forall k, k <> upper "Romeo" ->
             dict_get k (PLAYER_LOGINS w') = dict_get k (PLAYER_LOGINS w)) /\
  (unique_keys (PLAYER_LOGINS w) = true -> unique_keys (PLAYER_LOGINS w') = true) /\
  AVAILABLE_NATIONS w' = AVAILABLE_NATIONS w /\
  LAST_TURN_PLAYER w' = LAST_TURN_PLAYER w /\
  PLAYER_NOTIFICATION_STATE w' = PLAYER_NOTIFICATION_STATE w /\
  (true = true -> STATE_FILE w' = JsonFile (payload w')).
Proof.
  intros w args.
  assert (H1 : (2 <= length args)%nat) by (cbn; lia).
  assert (H4 : forall n, In n ["Egypt"] ->
                 contains (upper (join_space (removelast args))) (upper n) = false).
  { intros n [<-|[]]. reflexivity. }
  assert (H6 : "Romeo" <> "") by discriminate.
  split; [exact H1|]. split; [reflexivity|]. split; [reflexivity|].
  split; [exact H4|]. split; [reflexivity|]. split; [exact H6|].
  exact (subscribe_stores_login_under_first_match (Some 7) args true w
           ["Egypt"] "Romeo" ["Rome"] H1 eq_refl eq_refl H4 eq_refl H6).
Defined.

(** X13.  A command that does not answer with its success text changes
    nothing: [/subscribe] then only records the chat it came from (in
    memory, without saving), [/unsubscribe], [/setlang] and [/setinterval]
    leave the globals, the state file and the job queue as they were. *)
Theorem rejected_command_changes_nothing
    (chat : option Z) (args : list string) (jobs : list Job) (disk : bool) (w : World) :
  ((forall n u, snd (subscribe chat args disk w) <> subscribe_success n u) ->
   fst (subscribe chat args disk w)
   = match chat with Some c => set_MAIN_CHAT_ID (Some c) w | None => w end) /\
  ((forall u n, snd (unsubscribe args disk w) <> unsubscribe_success u n) ->
   fst (unsubscribe args disk w) = w) /\
  ((forall l, snd (set_language_cmd args disk w) <> setlang_success l) ->
   fst (set_language_cmd args disk w) = w) /\
  ((forall i, snd (set_interval_cmd args jobs disk w) <> setinterval_success i) ->
   fst (set_interval_cmd args jobs disk w) = (w, jobs)).
Proof.
  split; [|split; [|split]].
  - unfold subscribe.
    destruct (length args <? 2)%nat; [reflexivity|].
    destruct (negb (String.prefix "@" (List.last args ""))); [reflexivity|].
    destruct (List.find _ _) as [found|]; [|reflexivity].
    destruct (String.eqb found ""); [reflexivity|].
    intros H. exfalso. exact (H _ _ eq_refl).
  - unfold unsubscribe. destruct args as [|username rest]; [reflexivity|].
    destruct (negb (String.prefix "@" username)); [reflexivity|].
    destruct (List.find _ _) as [[k v]|]; [|reflexivity].
    destruct (String.eqb k ""); [reflexivity|].
    intros H. exfalso. exact (H _ _ eq_refl).
  - unfold set_language_cmd. destruct args as [|a rest]; [reflexivity|].
    destruct (_ || _); [|reflexivity].
    intros H. exfalso. exact (H _ eq_refl).
  - unfold set_interval_cmd. destruct args as [|a rest]; [reflexivity|].
    destruct (isdigit a); [|reflexivity].
    intros H. exfalso. exact (H _ eq_refl).
Qed.

(** X14.  [/unsubscribe @login] removes exactly one subscription, the
    first one in insertion order that holds the login; subscriptions before
    it and after it stay, in order, also those of the same login for other
    nations. *)
Theorem unsubscribe_removes_first_subscription_only
    (u : string) (rest : list string) (disk : bool) (w : World)
    (l1 : list (string * string)) (k : string) (l2 : list (string * string)) :
  String.prefix "@" u = true ->
  PLAYER_LOGINS w = l1 ++ (k, u) :: l2 ->
  (forall kv, In kv l1 -> snd kv <> u) ->
  k <> "" ->
  unique_keys (PLAYER_LOGINS w) = true ->
  let '(w', ans) := unsubscribe (u :: rest) disk w in
  ans = unsubscribe_success u (get_raw_nation_name (AVAILABLE_NATIONS w) k) /\
  PLAYER_LOGINS w' = l1 ++ l2 /\
  unique_keys (PLAYER_LOGINS w') = true /\
  (disk = true -> STATE_FILE w' = JsonFile (payload w')).
Proof.
  intros Hat Hlogins Hl1 Hne Huniq. unfold unsubscribe.
  rewrite Hat. cbn [negb]. rewrite Hlogins.
  rewrite (find_app_first (fun kv => String.eqb (snd kv) u) l1 (k, u) l2).
  - apply String.eqb_neq in Hne. rewrite Hne.
    assert (Hfresh : has_key k l1 = false).
    { rewrite Hlogins in Huniq. exact (unique_keys_app_fresh _ _ _ _ Huniq). }
    rewrite (dict_del_app_fresh k u l1 l2 Hfresh).
    split; [reflexivity|].
    split; [destruct disk; reflexivity|].
    split.
    + replace (PLAYER_LOGINS (save_state disk (set_PLAYER_LOGINS (l1 ++ l2) w)))
        with (dict_del k (l1 ++ (k, u) :: l2))
        by (rewrite (dict_del_app_fresh k u l1 l2 Hfresh); destruct disk; reflexivity).
      apply unique_keys_del. rewrite <- Hlogins. exact Huniq.
    + apply save_state_file.
  - intros kv Hin. apply String.eqb_neq. exact (Hl1 kv Hin).
  - apply String.eqb_refl.
Qed.

Lemma unsubscribe_removes_first_subscription_only_witness :
  let w := set_PLAYER_LOGINS [("EGYPT", "@bob"); ("ROME", "@ann"); ("GREECE", "@ann")]
             demo_world in
  String.prefix "@" "@ann" = true /\
  PLAYER_LOGINS w = [("EGYPT", "@bob")] ++ ("ROME", "@ann") :: [("GREECE", "@ann")] /\
  (forall kv, In kv [("EGYPT", "@bob")] -> snd kv <> "@ann") /\
  "ROME" <> "" /\
  unique_keys (PLAYER_LOGINS w) = true /\
  let '(w', ans) := unsubscribe ["@ann"] true w in
  ans = unsubscribe_success "@ann" (get_raw_nation_name (AVAILABLE_NATIONS w) "ROME") /\
  PLAYER_LOGINS w' = [("EGYPT", "@bob")] ++ [("GREECE", "@ann")] /\
  unique_keys (PLAYER_LOGINS w') = true /\
  (true = true -> STATE_FILE w' = JsonFile (payload w')).
Proof.
  intros w.
  assert (H3 : forall kv, In kv [("EGYPT", "@bob")] -> snd kv <> "@ann").
  { intros kv [<-|[]]. discriminate. }
  assert (H4 : "ROME" <> "") by discriminate.
  split; [reflexivity|]. split; [reflexivity|]. split; [exact H3|].
  split; [exact H4|]. split; [reflexivity|].
  exact (unsubscribe_removes_first_subscription_only "@ann" [] true w
           [("EGYPT", "@bob")] "ROME" [("GREECE", "@ann")] eq_refl eq_refl H3 H4 eq_refl).
Defined.

(** X15.  Subscribing a login that is not yet used, to a nation that has no
    subscription yet, and then unsubscribing that login gives back the
    subscriptions as they were. *)
Theorem subscribe_then_unsubscribe_restores
    (chat : option Z) (args : list string) (disk disk' : bool) (w : World)
    (l1 : list string) (found : string) (l2 : list string) :
  (2 <= length args)%nat ->
  String.prefix "@" (List.last args "") = true ->
  AVAILABLE_NATIONS w = l1 ++ found :: l2 ->
  (forall n, In n l1 ->
     contains (upper (join_space (removelast args))) (upper n) = false) ->
  contains (upper (join_space (removelast args))) (upper found) = true ->
  found <> "" ->
  has_key (upper found) (PLAYER_LOGINS w) = false ->
  (forall kv, In kv (PLAYER_LOGINS w) -> snd kv <> List.last args "") ->
  PLAYER_LOGINS
    (fst (unsubscribe [List.last args ""] disk' (fst (subscribe chat args disk w))))
  = PLAYER_LOGINS w.
Proof.
  intros Hlen Hat Hroster Hl1 Hfound Hne Hfresh Hunused.
  rewrite (subscribe_found chat args disk w l1 found l2 Hlen Hat Hroster Hl1 Hfound Hne).
  cbn [fst]. unfold unsubscribe. rewrite Hat. cbn [negb].
  assert (Hl : PLAYER_LOGINS
                 (save_state disk
                    (set_PLAYER_LOGINS
                       (dict_set (upper found) (List.last args "") (PLAYER_LOGINS w))
                       (match chat with Some c => set_MAIN_CHAT_ID (Some c) w | None => w end)))
               = PLAYER_LOGINS w ++ [(upper found, List.last args "")]).
  { rewrite <- (dict_set_fresh _ _ _ Hfresh). destruct disk, chat; reflexivity. }
  rewrite Hl.
  rewrite (find_app_first (fun kv => String.eqb (snd kv) (List.last args ""))
             (PLAYER_LOGINS w) (upper found, List.last args "") []).
  - pose proof (upper_nonempty found Hne) as Hu. apply String.eqb_neq in Hu. rewrite Hu.
    rewrite (dict_del_app_fresh _ _ _ [] Hfresh), app_nil_r.
    destruct disk'; reflexivity.
  - intros kv Hin. apply String.eqb_neq. exact (Hunused kv Hin).
  - apply String.eqb_refl.
Qed.

Lemma subscribe_then_unsubscribe_restores_witness :
  let args := ["Rome"; "@ann"] in
  (2 <= length args)%nat /\
  String.prefix "@" (List.last args "") = true /\
  AVAILABLE_NATIONS demo_world = [] ++ "Rome" :: ["Egypt"] /\
  (forall n, In n [] ->
     contains (upper (join_space (removelast args))) (upper n) = false) /\
  contains (upper (join_space (removelast args))) (upper "Rome") = true /\
  "Rome" <> "" /\
  has_key (upper "Rome") (PLAYER_LOGINS demo_world) = false /\
  (forall kv, In kv (PLAYER_LOGINS demo_world) -> snd kv <> List.last args "") /\
  PLAYER_LOGINS
    (fst (unsubscribe [List.last args ""] true (fst (subscribe (Some 7) args true demo_world))))
  = PLAYER_LOGINS demo_world.
Proof.
  intros args.
  assert (H1 : (2 <= length args)%nat) by (cbn; lia).
  assert (H4 : forall n, In n [] ->
                 contains (upper (join_space (removelast args))) (upper n) = false)
    by (intros n []).
  assert (H6 : "Rome" <> "") by discriminate.
  assert (H8 : forall kv, In kv (PLAYER_LOGINS demo_world) -> snd kv <> List.last args "").
  { intros kv [<-|[]]. discriminate. }
  split; [exact H1|]. split; [reflexivity|]. split; [reflexivity|].
  split; [exact H4|]. split; [reflexivity|]. split; [exact H6|].
  split; [reflexivity|]. split; [exact H8|].
  exact (subscribe_then_unsubscribe_restores (Some 7) args true true demo_world
           [] "Rome" ["Egypt"] H1 eq_refl eq_refl H4 eq_refl H6 eq_refl H8).
Defined.

(** X16.  [/list] answers with one line per subscription, in insertion
    order and with the stored login; each line names the nation by a roster
    entry that normalizes to the key, or by the key itself when the roster
    has none.  Without subscriptions the answer is the empty-list text. *)
Theorem list_shows_every_subscription (w : World) :
  (PLAYER_LOGINS w = [] -> list_subscriptions w = list_empty) /\
  (PLAYER_LOGINS w <> [] ->
   exists lines,
     list_subscriptions w = list_title lines /\
     map snd lines = map snd (PLAYER_LOGINS w) /\
     Forall2 (fun line kv =>
                fst line = get_raw_nation_name (AVAILABLE_NATIONS w) (fst kv) /\
                (upper (fst kv) = fst kv -> upper (fst line) = fst kv))
             lines (PLAYER_LOGINS w)).
Proof.
  unfold list_subscriptions.
  destruct (PLAYER_LOGINS w) as [|kv logins]; [split; [reflexivity|congruence]|].
  split; [discriminate|]. intros _.
  eexists. split; [reflexivity|].
  generalize (kv :: logins). intros l. split.
  - induction l as [|x l IH]; cbn; [reflexivity|]. f_equal. exact IH.
  - induction l as [|x l IH]; cbn; constructor; [|exact IH].
    split; [reflexivity|]. intros Hk.
    apply (get_raw_nation_name_upper (AVAILABLE_NATIONS w) (fst x) Hk).
Qed.

(** ** /setlang and /setinterval *)

(** X17.  [/setlang] stores only "en" or "ua", the lower-cased first word;
    with any other word, or none, the language stays as it was.  After a
    successful command and save, a restart comes up in the new language. *)
Theorem setlang_accepts_en_and_ua_only
    (cfg : Config) (args : list string) (disk : bool) (w : World) :
  let '(w', ans) := set_language_cmd args disk w in
  (BOT_LANGUAGE w' = BOT_LANGUAGE w \/ BOT_LANGUAGE w' = "en" \/ BOT_LANGUAGE w' = "ua") /\
  (forall l, ans = setlang_success l ->
     BOT_LANGUAGE w' = l /\ (l = "en" \/ l = "ua") /\ l = lower (List.hd "" args) /\
     (disk = true -> unique_keys (PLAYER_LOGINS w) = true ->
      exists w'', restart cfg w' = Some (true, w'') /\ BOT_LANGUAGE w'' = l)) /\
  (ans = setlang_usage -> w' = w).
Proof.
  unfold set_language_cmd. destruct args as [|a rest].
  - split; [left; reflexivity|]. split; [discriminate|reflexivity].
  - destruct (String.eqb (lower a) "en" || String.eqb (lower a) "ua") eqn:E.
    + assert (Hl : lower a = "en" \/ lower a = "ua").
      { apply orb_true_iff in E as [E|E]; apply String.eqb_eq in E; auto. }
      split; [right; destruct disk; exact Hl|].
      split; [|discriminate].
      intros l Hans. inversion Hans; subst l.
      split; [destruct disk; reflexivity|]. split; [exact Hl|]. split; [reflexivity|].
      intros -> Hu. eexists. split.
      * unfold restart, save_state. cbn [STATE_FILE set_STATE_FILE].
        exact (load_after_save (boot cfg NoFile) (set_BOT_LANGUAGE (lower a) w) Hu).
      * reflexivity.
    + split; [left; reflexivity|]. split; [discriminate|reflexivity].
Qed.

Lemma int_of_digits_nonneg s : forall acc, 0 <= acc -> 0 <= int_of_digits acc s.
Proof.
  induction s as [|c s IH]; intros acc Hacc; cbn; [exact Hacc|].
  apply IH. lia.
Qed.

Lemma filter_monitor_job_replaced (jobs : list Job) (j : Job) :
  String.eqb (job_name j) "monitor_job" = true ->
  List.filter (fun x => String.eqb (job_name x) "monitor_job")
    (List.filter (fun x => negb (String.eqb (job_name x) "monitor_job")) jobs ++ [j])
  = [j] /\
  List.filter (fun x => negb (String.eqb (job_name x) "monitor_job"))
    (List.filter (fun x => negb (String.eqb (job_name x) "monitor_job")) jobs ++ [j])
  = List.filter (fun x => negb (String.eqb (job_name x) "monitor_job")) jobs.
Proof.
  intros Hj. rewrite !List.filter_app. cbn. rewrite Hj. cbn. split.
  - induction jobs as [|x jobs IH]; cbn; [reflexivity|].
    destruct (String.eqb (job_name x) "monitor_job") eqn:E; cbn; [exact IH|].
    rewrite E. exact IH.
  - rewrite app_nil_r.
    induction jobs as [|x jobs IH]; cbn; [reflexivity|].
    destruct (String.eqb (job_name x) "monitor_job") eqn:E; cbn; [exact IH|].
    rewrite E. cbn. f_equal. exact IH.
Qed.

(** X18.  [/setinterval] with a word of decimal digits: the interval is the
    (non-negative) number written, zero included; afterwards the job queue
    holds exactly one job named monitor_job, with that interval, however
    many it held before, and its other jobs are kept; after the save, a
    restart schedules the monitor with the same interval. *)
Theorem setinterval_reschedules_single_monitor_job
    (cfg : Config) (a : string) (rest : list string) (jobs : list Job)
    (disk : bool) (w : World) :
  isdigit a = true ->
  let '(w', jobs', ans) := set_interval_cmd (a :: rest) jobs disk w in
  ans = setinterval_success (int_of_digits 0 a) /\
  0 <= int_of_digits 0 a /\
  MONITOR_INTERVAL_SECONDS_DEFAULT w' = int_of_digits 0 a /\
  List.filter (fun j => String.eqb (job_name j) "monitor_job") jobs'
  = [ {| job_name := "monitor_job"; job_interval := int_of_digits 0 a; job_first := 1 |} ] /\
  List.filter (fun j => negb (String.eqb (job_name j) "monitor_job")) jobs'
  = List.filter (fun j => negb (String.eqb (job_name j) "monitor_job")) jobs /\
  (disk = true -> unique_keys (PLAYER_LOGINS w) = true ->
   exists w'', restart cfg w' = Some (true, w'') /\
     main_jobs w''
     = [ {| job_name := "monitor_job"; job_interval := int_of_digits 0 a;
            job_first := 3 |} ]).
Proof.
  intros Hd. unfold set_interval_cmd. rewrite Hd.
  split; [reflexivity|].
  split; [apply int_of_digits_nonneg; lia|].
  split; [destruct disk; reflexivity|].
  destruct (filter_monitor_job_replaced jobs
              {| job_name := "monitor_job"; job_interval := int_of_digits 0 a;
                 job_first := 1 |} eq_refl) as [F1 F2].
  split; [exact F1|]. split; [exact F2|].
  intros -> Hu. eexists. split.
  - unfold restart, save_state. cbn [STATE_FILE set_STATE_FILE].
    exact (load_after_save (boot cfg NoFile)
             (set_MONITOR_INTERVAL_SECONDS_DEFAULT (int_of_digits 0 a) w) Hu).
  - reflexivity.
Qed.

Lemma setinterval_reschedules_single_monitor_job_witness :
  let jobs := [ {| job_name := "monitor_job"; job_interval := 60; job_first := 3 |} ] in
  isdigit "120" = true /\
  let '(w', jobs', ans) := set_interval_cmd ["120"] jobs true demo_world in
  ans = setinterval_success 120 /\
  0 <= int_of_digits 0 "120" /\
  MONITOR_INTERVAL_SECONDS_DEFAULT w' = 120 /\
  List.filter (fun j => String.eqb (job_name j) "monitor_job") jobs'
  = [ {| job_name := "monitor_job"; job_interval := 120; job_first := 1 |} ] /\
  List.filter (fun j => negb (String.eqb (job_name j) "monitor_job")) jobs'
  = List.filter (fun j => negb (String.eqb (job_name j) "monitor_job")) jobs /\
  (true = true -> unique_keys (PLAYER_LOGINS demo_world) = true ->
   exists w'', restart demo_config w' = Some (true, w'') /\
     main_jobs w''
     = [ {| job_name := "monitor_job"; job_interval := 120; job_first := 3 |} ]).
Proof.
  intros jobs. split; [reflexivity|].
  exact (setinterval_reschedules_single_monitor_job demo_config "120" [] jobs true
           demo_world eq_refl).
Defined.

(** ** load_state *)

(** X19.  When [load_state] answers False (no file, a file that is not
    JSON, or JSON that is not an object) no global has been assigned; and
    [load_state] never writes the file, whatever it answers. *)
Theorem load_state_failure_assigns_nothing (w w' : World) (ok : bool) :
  load_state w = Some (ok, w') ->
  STATE_FILE w' = STATE_FILE w /\
  (ok = false -> w' = w) /\
  (ok = true -> exists kv, STATE_FILE w = JsonFile (JDict kv)).
Proof.
  unfold load_state.
  destruct (STATE_FILE w) as [| |[| | |kv]] eqn:Hfile;
    try solve [intros H; inversion H; subst; repeat split; try discriminate;
               rewrite Hfile; reflexivity].
  destruct (read_opt_str _); [|discriminate].
  destruct (read_opt_str _); [|discriminate].
  destruct (read_opt_int _); [|discriminate].
  destruct (read_logins _); [|discriminate].
  destruct (read_opt_str _); [|discriminate].
  destruct (read_str _ _); [|discriminate].
  destruct (read_int _ _); [|discriminate].
  intros H; inversion H; subst. cbn.
  split; [reflexivity|]. split; [discriminate|]. intros _. eauto.
Qed.

Lemma load_state_failure_assigns_nothing_witness :
  let w := set_STATE_FILE Garbage demo_world in
  load_state w = Some (false, w) /\
  STATE_FILE w = STATE_FILE w /\
  (false = false -> w = w) /\
  (false = true -> exists kv, STATE_FILE w = JsonFile (JDict kv)).
Proof.
  intros w. split; [reflexivity|].
  exact (load_state_failure_assigns_nothing w w false eq_refl).
Defined.

(** X20.  A state file that is an object but lacks a key gives that global
    the default of [load_state], not the value from the environment: the
    language becomes "en", the interval 60, the subscriptions empty, and
    the game, the chat and the last player unset. *)
Theorem load_state_missing_keys_take_defaults
    (w w' : World) (ok : bool) (kv : list (string * json)) :
  STATE_FILE w = JsonFile (JDict kv) ->
  load_state w = Some (ok, w') ->
  ok = true /\
  (has_key "BOT_LANGUAGE" (py_dict kv) = false -> BOT_LANGUAGE w' = "en") /\
  (has_key "MONITOR_INTERVAL" (py_dict kv) = false ->
   MONITOR_INTERVAL_SECONDS_DEFAULT w' = 60) /\
  (has_key "PLAYER_LOGINS" (py_dict kv) = false -> PLAYER_LOGINS w' = []) /\
  (has_key "GAME_ID" (py_dict kv) = false -> GAME_ID w' = None) /\
  (has_key "CURRENT_GAME_URL" (py_dict kv) = false -> CURRENT_GAME_URL w' = None) /\
  (has_key "MAIN_CHAT_ID" (py_dict kv) = false -> MAIN_CHAT_ID w' = None) /\
  (has_key "LAST_TURN_PLAYER" (py_dict kv) = false -> LAST_TURN_PLAYER w' = None).
Proof.
  intros Hfile. unfold load_state. rewrite Hfile.
  destruct (read_opt_str (dict_get "GAME_ID" _)) as [gid|] eqn:E1; [|discriminate].
  destruct (read_opt_str (dict_get "CURRENT_GAME_URL" _)) as [url|] eqn:E2; [|discriminate].
  destruct (read_opt_int _) as [chat|] eqn:E3; [|discriminate].
  destruct (read_logins _) as [logins|] eqn:E4; [|discriminate].
  destruct (read_opt_str (dict_get "LAST_TURN_PLAYER" _)) as [last|] eqn:E5; [|discriminate].
  destruct (read_str _ _) as [lang|] eqn:E6; [|discriminate].
  destruct (read_int _ _) as [interval|] eqn:E7; [|discriminate].
  intros H. inversion H; subst. cbn.
  split; [reflexivity|].
  split; [intros Hk; apply dict_get_has_key in Hk; rewrite Hk in E6; cbn in E6; congruence|].
  split; [intros Hk; apply dict_get_has_key in Hk; rewrite Hk in E7; cbn in E7; congruence|].
  split; [intros Hk; apply dict_get_has_key in Hk; rewrite Hk in E4; cbn in E4; congruence|].
  split; [intros Hk; apply dict_get_has_key in Hk; rewrite Hk in E1; cbn in E1; congruence|].
  split; [intros Hk; apply dict_get_has_key in Hk; rewrite Hk in E2; cbn in E2; congruence|].
  split; [intros Hk; apply dict_get_has_key in Hk; rewrite Hk in E3; cbn in E3; congruence|].
  intros Hk; apply dict_get_has_key in Hk; rewrite Hk in E5; cbn in E5; congruence.
Qed.

Lemma load_state_missing_keys_take_defaults_witness :
  let cfg := {| BASE_URL := "https://uncivserver.xyz/jsons/";
                env_MONITOR_INTERVAL_SECONDS := 30; env_BOT_LANGUAGE := "ua" |} in
  let w := boot cfg (JsonFile (JDict [("GAME_ID", JStr "g1")])) in
  let w' := {| GAME_ID := Some "g1"; CURRENT_GAME_URL := None; LAST_TURN_PLAYER := None;
               MAIN_CHAT_ID := None; NOTIFY_PAUSED := false; AVAILABLE_NATIONS := [];
               PLAYER_LOGINS := []; PLAYER_NOTIFICATION_STATE := ∅; ETAG_CACHE := ∅;
               BOT_LANGUAGE := "en"; MONITOR_INTERVAL_SECONDS_DEFAULT := 60;
               last_error_time_by_chat := ∅;
               STATE_FILE := JsonFile (JDict [("GAME_ID", JStr "g1")]) |} in
  STATE_FILE w = JsonFile (JDict [("GAME_ID", JStr "g1")]) /\
  load_state w = Some (true, w') /\
  BOT_LANGUAGE w = "ua" /\ MONITOR_INTERVAL_SECONDS_DEFAULT w = 30 /\
  BOT_LANGUAGE w' = "en" /\ MONITOR_INTERVAL_SECONDS_DEFAULT w' = 60.
Proof.
  intros cfg w w'.
  destruct (load_state_missing_keys_take_defaults w w' true
              [("GAME_ID", JStr "g1")] eq_refl eq_refl)
    as (_ & T1 & T2 & _).
  split; [reflexivity|]. split; [reflexivity|].
  split; [reflexivity|]. split; [reflexivity|].
  split; [exact (T1 eq_refl)|exact (T2 eq_refl)].
Defined.

(** ** /setgame *)

(** The successful path of [/setgame]. *)
Lemma set_game_fetched cfg chat id args status etag g disk w :
  status <> 304 -> status < 400 -> not_modified g = false ->
  exists h w1,
    set_game cfg chat (id :: args) (response status etag (body_json (DocDict g))) disk w
    = (save_state disk w1,
       [http_get (BASE_URL cfg ++ id) h;
        reply (setgame_success id (AVAILABLE_NATIONS w1)
                 (MONITOR_INTERVAL_SECONDS_DEFAULT w))]) /\
    GAME_ID w1 = Some id /\
    CURRENT_GAME_URL w1 = Some (BASE_URL cfg ++ id)%string /\
    LAST_TURN_PLAYER w1 = None /\
    PLAYER_NOTIFICATION_STATE w1 = ∅ /\
    PLAYER_LOGINS w1 = [] /\
    NOTIFY_PAUSED w1 = NOTIFY_PAUSED w /\
    BOT_LANGUAGE w1 = BOT_LANGUAGE w /\
    MONITOR_INTERVAL_SECONDS_DEFAULT w1 = MONITOR_INTERVAL_SECONDS_DEFAULT w /\
    last_error_time_by_chat w1 = last_error_time_by_chat w /\
    MAIN_CHAT_ID w1 = match chat with Some c => Some c | None => MAIN_CHAT_ID w end /\
    STATE_FILE w1 = STATE_FILE w /\
    ETAG_CACHE w1
    = match etag with
      | Some e => if String.eqb e "" then ETAG_CACHE w
                  else <[(BASE_URL cfg ++ id)%string := e]> (ETAG_CACHE w)
      | None => ETAG_CACHE w
      end.
Proof.
  intros H304 H400 Hnm. unfold set_game, fetch_game_json.
  apply Z.eqb_neq in H304. rewrite H304.
  destruct (Z.leb_spec 400 status) as [?|_]; [lia|].
  cbn beta iota. rewrite Hnm.
  set (w0 := match chat with Some c => set_MAIN_CHAT_ID (Some c) w | None => w end).
  set (etags' := match etag with
                 | Some e => if String.eqb e "" then ETAG_CACHE w0
                             else <[(BASE_URL cfg ++ id)%string := e]> (ETAG_CACHE w0)
                 | None => ETAG_CACHE w0
                 end).
  exists (if truthy_str (ETAG_CACHE w0 !! (BASE_URL cfg ++ id)%string)
          then ETAG_CACHE w0 !! (BASE_URL cfg ++ id)%string else None),
    (set_AVAILABLE_NATIONS
       (match human_civs g with Return hc => named hc | Raise _ => [] end)
       (set_CURRENT_GAME_URL (Some (BASE_URL cfg ++ id)%string)
          (set_GAME_ID (Some id)
             (set_LAST_TURN_PLAYER None
                (set_AVAILABLE_NATIONS []
                   (set_PLAYER_NOTIFICATION_STATE ∅
                      (set_PLAYER_LOGINS [] (set_ETAG_CACHE etags' w0)))))))).
  assert (Hi : MONITOR_INTERVAL_SECONDS_DEFAULT w0 = MONITOR_INTERVAL_SECONDS_DEFAULT w)
    by (subst w0; destruct chat; reflexivity).
  split.
  { destruct (human_civs g); destruct disk; world_simpl; rewrite Hi; reflexivity. }
  world_simpl. subst etags' w0.
  destruct chat; world_simpl; repeat split.
Qed.



(** X22.  A [/setgame] that does not answer with its success text (no
    argument, a failed or unreadable fetch, a 304, JSON null or a value
    that is not an object) leaves the session as it was: game id, URL, last
    player, reminder table, roster, subscriptions, pause flag and state
    file are unchanged. *)
Theorem setgame_failure_keeps_session
    (cfg : Config) (chat : option Z) (args : list string) (n : NetResult)
    (disk : bool) (w : World) :
  (forall id roster interval,
     ~ In (reply (setgame_success id roster interval))
          (snd (set_game cfg chat args n disk w))) ->
  let w' := fst (set_game cfg chat args n disk w) in
  GAME_ID w' = GAME_ID w /\ CURRENT_GAME_URL w' = CURRENT_GAME_URL w /\
  LAST_TURN_PLAYER w' = LAST_TURN_PLAYER w /\
  PLAYER_NOTIFICATION_STATE w' = PLAYER_NOTIFICATION_STATE w /\
  AVAILABLE_NATIONS w' = AVAILABLE_NATIONS w /\
  PLAYER_LOGINS w' = PLAYER_LOGINS w /\
  NOTIFY_PAUSED w' = NOTIFY_PAUSED w /\
  STATE_FILE w' = STATE_FILE w.
Proof.
  unfold set_game.
  set (w0 := match chat with Some c => set_MAIN_CHAT_ID (Some c) w | None => w end).
  assert (Hw0 : GAME_ID w0 = GAME_ID w /\ CURRENT_GAME_URL w0 = CURRENT_GAME_URL w /\
                LAST_TURN_PLAYER w0 = LAST_TURN_PLAYER w /\
                PLAYER_NOTIFICATION_STATE w0 = PLAYER_NOTIFICATION_STATE w /\
                AVAILABLE_NATIONS w0 = AVAILABLE_NATIONS w /\
                PLAYER_LOGINS w0 = PLAYER_LOGINS w /\
                NOTIFY_PAUSED w0 = NOTIFY_PAUSED w /\
                STATE_FILE w0 = STATE_FILE w)
    by (subst w0; destruct chat; repeat split).
  clearbody w0.
  destruct args as [|id rest]; [intros _; exact Hw0|].
  destruct (fetch_game_json (ETAG_CACHE w0) (BASE_URL cfg ++ id)%string n)
    as [[r etags'] req].
  destruct r as [[| |g]|e]; try (intros _; exact Hw0).
  destruct (not_modified g); [intros _; exact Hw0|].
  intros H. exfalso. eapply H. cbn [snd]. apply in_or_app. right. left. reflexivity.
Qed.

Lemma setgame_failure_keeps_session_witness :
  (forall id roster interval,
     ~ In (reply (setgame_success id roster interval))
          (snd (set_game demo_config (Some 9) ["g2"]
                  (response 200 None (body_json DocNull)) true demo_world))) /\
  let w' := fst (set_game demo_config (Some 9) ["g2"]
                   (response 200 None (body_json DocNull)) true demo_world) in
  GAME_ID w' = GAME_ID demo_world /\ CURRENT_GAME_URL w' = CURRENT_GAME_URL demo_world /\
  LAST_TURN_PLAYER w' = LAST_TURN_PLAYER demo_world /\
  PLAYER_NOTIFICATION_STATE w' = PLAYER_NOTIFICATION_STATE demo_world /\
  AVAILABLE_NATIONS w' = AVAILABLE_NATIONS demo_world /\
  PLAYER_LOGINS w' = PLAYER_LOGINS demo_world /\
  NOTIFY_PAUSED w' = NOTIFY_PAUSED demo_world /\
  STATE_FILE w' = STATE_FILE demo_world.
Proof.
  assert (H : forall id roster interval,
     ~ In (reply (setgame_success id roster interval))
          (snd (set_game demo_config (Some 9) ["g2"]
                  (response 200 None (body_json DocNull)) true demo_world))).
  { intros id roster interval [Hin|[Hin|[]]]; discriminate. }
  split; [exact H|].
  exact (setgame_failure_keeps_session demo_config (Some 9) ["g2"]
           (response 200 None (body_json DocNull)) true demo_world H).
Defined.

(** X23.  After a successful [/setgame] whose response carried an ETag, a
    second [/setgame] for the same id sends that tag as If-None-Match; when
    the server answers 304 Not Modified, the command answers with the
    fetch-failure text and changes nothing but the main chat.  So the
    roster cannot be refreshed with [/setgame] while the game file on the
    server is unchanged. *)
Theorem setgame_again_is_refused_while_unmodified
    (cfg : Config) (chat chat2 : option Z) (id : string) (args args2 : list string)
    (status : Z) (e : string) (g : GameJson) (disk disk2 : bool) (w : World)
    (etag2 : option string) (body2 : Body) :
  status <> 304 -> status < 400 -> not_modified g = false -> e <> "" ->
  let w1 := fst (set_game cfg chat (id :: args)
                   (response status (Some e) (body_json (DocDict g))) disk w) in
  set_game cfg chat2 (id :: args2) (response 304 etag2 body2) disk2 w1
  = (match chat2 with Some c => set_MAIN_CHAT_ID (Some c) w1 | None => w1 end,
     [http_get (BASE_URL cfg ++ id) (Some e); reply (setgame_fail_fetch id)]).
Proof.
  intros H304 H400 Hnm He.
  destruct (set_game_fetched cfg chat id args status (Some e) g disk w H304 H400 Hnm)
    as (h & w1 & Hs & _ & _ & _ & _ & _ & _ & _ & _ & _ & _ & _ & Hetag).
  rewrite Hs. cbn [fst].
  assert (Hc : ETAG_CACHE (save_state disk w1) !! (BASE_URL cfg ++ id)%string = Some e).
  { replace (ETAG_CACHE (save_state disk w1)) with (ETAG_CACHE w1)
      by (destruct disk; reflexivity).
    rewrite Hetag. apply String.eqb_neq in He. rewrite He. apply lookup_insert_eq. }
  generalize dependent (save_state disk w1). intros v _ Hc.
  unfold set_game.
  set (v0 := match chat2 with Some c => set_MAIN_CHAT_ID (Some c) v | None => v end).
  assert (Hv0 : ETAG_CACHE v0 = ETAG_CACHE v) by (subst v0; destruct chat2; reflexivity).
  clearbody v0.
  unfold fetch_game_json. rewrite Hv0, Hc. cbn [Z.eqb Pos.eqb not_modified_dict not_modified].
  rewrite <- Hv0, set_ETAG_CACHE_same.
  cbn [truthy_str]. apply String.eqb_neq in He. rewrite He. reflexivity.
Qed.

Lemma setgame_again_is_refused_while_unmodified_witness :
  let g := demo_payload "Rome" None in
  200 <> 304 /\ 200 < 400 /\ not_modified g = false /\ "v1" <> "" /\
  let w1 := fst (set_game demo_config (Some 7) ["g1"]
                   (response 200 (Some "v1") (body_json (DocDict g))) true demo_world) in
  set_game demo_config (Some 7) ["g1"] (response 304 None (body_json DocNull)) true w1
  = (set_MAIN_CHAT_ID (Some 7) w1,
     [http_get "https://uncivserver.xyz/jsons/g1" (Some "v1");
      reply (setgame_fail_fetch "g1")]).
Proof.
  intros g.
  assert (H1 : 200 <> 304) by discriminate.
  assert (H2 : 200 < 400) by reflexivity.
  assert (H4 : "v1" <> "") by discriminate.
  split; [exact H1|]. split; [exact H2|]. split; [reflexivity|]. split; [exact H4|].
  exact (setgame_again_is_refused_while_unmodified demo_config (Some 7) (Some 7) "g1" [] []
           200 "v1" g true true demo_world None (body_json DocNull) H1 H2 eq_refl H4).
Defined.

(** ** Reachable states *)

Ltac globals_simpl :=
  cbn [GAME_ID CURRENT_GAME_URL LAST_TURN_PLAYER MAIN_CHAT_ID NOTIFY_PAUSED
       AVAILABLE_NATIONS PLAYER_LOGINS PLAYER_NOTIFICATION_STATE ETAG_CACHE
       BOT_LANGUAGE MONITOR_INTERVAL_SECONDS_DEFAULT last_error_time_by_chat
       STATE_FILE set_GAME_ID set_CURRENT_GAME_URL set_LAST_TURN_PLAYER
       set_MAIN_CHAT_ID set_NOTIFY_PAUSED set_AVAILABLE_NATIONS set_PLAYER_LOGINS
       set_PLAYER_NOTIFICATION_STATE set_ETAG_CACHE set_last_error_time_by_chat
       set_STATE_FILE set_BOT_LANGUAGE set_MONITOR_INTERVAL_SECONDS_DEFAULT
       boot fst snd] in *.

Lemma observed_player_nonempty w data g raw :
  observed_player w data = Some (g, raw) -> raw <> "".
Proof.
  unfold observed_player. destruct data as [| |g0]; try discriminate.
  destruct (if not_modified g0 then LAST_TURN_PLAYER w else currentPlayer g0) as [r|];
    [|discriminate].
  destruct (String.eqb_spec r ""); [discriminate|].
  intros H. inversion H; subst. assumption.
Qed.

Lemma tick_observes_nonempty env w g raw :
  tick_observes env w = Some (g, raw) -> raw <> "".
Proof.
  intros H. destruct (tick_observes_inv _ _ _ _ H) as (_ & data & _ & _ & _ & Hd).
  exact (observed_player_nonempty _ _ _ _ Hd).
Qed.

Lemma save_state_file_cases ok w :
  STATE_FILE (save_state ok w) = STATE_FILE w \/
  STATE_FILE (save_state ok w) = JsonFile (payload (save_state ok w)).
Proof. destruct ok; [right|left]; reflexivity. Qed.

(** Last player and state file after the reminder block. *)
Lemma check_reminder_last_file env p chat st w :
  let w' := snd (fst (check_reminder env p chat st w)) in
  LAST_TURN_PLAYER w' = LAST_TURN_PLAYER w /\
  (STATE_FILE w' = STATE_FILE w \/ STATE_FILE w' = JsonFile (payload w')).
Proof.
  unfold check_reminder.
  destruct (last_reminded_time st); cbn beta iota zeta;
    try (split; [reflexivity|left; reflexivity]);
    (destruct (REMINDER_SCHEDULE !! _); [|split; [reflexivity|left; reflexivity]]);
    (destruct (_ <=? _); [|split; [reflexivity|left; reflexivity]]);
    (split; [destruct (disk_ok env); reflexivity|]);
    destruct (disk_ok env); [right|left|right|left]; reflexivity.
Qed.

Lemma handle_data_last_file env data w :
  let w' := snd (fst (handle_data env data w)) in
  (LAST_TURN_PLAYER w' = LAST_TURN_PLAYER w \/
   exists g raw, observed_player w data = Some (g, raw) /\
                 LAST_TURN_PLAYER w' = Some (upper raw)) /\
  (STATE_FILE w' = STATE_FILE w \/ STATE_FILE w' = JsonFile (payload w')).
Proof.
  destruct (observed_player w data) as [[g raw]|] eqn:Hd.
  - rewrite (handle_data_observed _ _ _ _ _ Hd).
    destruct (LAST_TURN_PLAYER w) as [last|] eqn:Hlast.
    + destruct (negb (String.eqb (upper raw) last)).
      * unfold turn_changed. cbn [fst snd]. split.
        -- right. exists g, raw. split; [reflexivity|]. destruct (disk_ok env); reflexivity.
        -- destruct (disk_ok env); [right|left]; reflexivity.
      * destruct (PLAYER_NOTIFICATION_STATE w !! upper raw) as [st|];
          [|cbn; split; left; [exact Hlast|reflexivity]].
        destruct (MAIN_CHAT_ID w) as [chat|];
          [|cbn; split; left; [exact Hlast|reflexivity]].
        destruct (negb (chat =? 0) && negb (NOTIFY_PAUSED w));
          [|cbn; split; left; [exact Hlast|reflexivity]].
        destruct (check_reminder_last_file env (upper raw) chat st w) as [H1 H2].
        split; [left; rewrite <- Hlast; exact H1|exact H2].
    + cbn [fst snd]. unfold first_observation. split.
      * right. exists g, raw. split; [reflexivity|].
        destruct (human_civs g) as [[|c hc]|e], (disk_ok env); reflexivity.
      * destruct (human_civs g) as [[|c hc]|e], (disk_ok env);
          first [right; reflexivity|left; reflexivity].
  - unfold handle_data. rewrite Hd. cbn. split; left; reflexivity.
Qed.

Lemma monitor_last_file env w :
  let w' := snd (fst (monitor_game_state env w)) in
  (LAST_TURN_PLAYER w' = LAST_TURN_PLAYER w \/
   exists raw, raw <> "" /\ LAST_TURN_PLAYER w' = Some (upper raw)) /\
  (STATE_FILE w' = STATE_FILE w \/ STATE_FILE w' = JsonFile (payload w')).
Proof.
  destruct (monitor_decompose env w) as [Hnone|(g & raw & data & etags' & h & Hobs & Hd & Hm)].
  - pose proof (monitor_not_observing env w Hnone) as H.
    destruct (monitor_game_state env w) as [[r w'] evs].
    destruct H as (_ & _ & Hl & _ & _ & _ & _ & Hf & _). cbn.
    split; left; assumption.
  - rewrite Hm. cbn [fst snd].
    destruct (handle_data_last_file env data (set_ETAG_CACHE etags' w)) as [H1 H2].
    split; [|exact H2].
    destruct H1 as [H1|(g' & raw' & Hd' & H1)]; [left; exact H1|].
    right. exists raw'. split; [|exact H1].
    exact (observed_player_nonempty _ _ _ _ Hd').
Qed.

Lemma persisted_ok_transfer cfg w w' :
  PLAYER_LOGINS w' = PLAYER_LOGINS w -> GAME_ID w' = GAME_ID w ->
  CURRENT_GAME_URL w' = CURRENT_GAME_URL w -> BOT_LANGUAGE w' = BOT_LANGUAGE w ->
  (LAST_TURN_PLAYER w' = LAST_TURN_PLAYER w \/
   exists raw, raw <> "" /\ LAST_TURN_PLAYER w' = Some (upper raw)) ->
  persisted_ok cfg w -> persisted_ok cfg w'.
Proof.
  intros Hl Hg Hu Hb Hlast (P1 & P2 & P3 & P4 & P5). unfold persisted_ok.
  rewrite Hl, Hg, Hu, Hb.
  split; [exact P1|]. split; [exact P2|]. split; [|split; assumption].
  intros p H. destruct Hlast as [E|(raw & Hne & E)]; rewrite E in H.
  - apply (P3 p H).
  - inversion H; subst. split; [apply upper_nonempty, Hne|apply upper_idempotent].
Qed.

Lemma file_ok_transfer cfg w w' :
  (STATE_FILE w' = STATE_FILE w \/ STATE_FILE w' = JsonFile (payload w')) ->
  persisted_ok cfg w' -> file_ok cfg w -> file_ok cfg w'.
Proof.
  intros [E|E] Hp Hf; unfold file_ok; rewrite E.
  - exact Hf.
  - right. exists w'. split; [reflexivity|exact Hp].
Qed.

(** Saving keeps the invariant: the new file is a snapshot of a good state. *)
Lemma invariant_save cfg ok w :
  persisted_ok cfg w -> entries_ok w -> file_ok cfg w -> invariant cfg (save_state ok w).
Proof.
  intros Hp He Hf.
  assert (Hp' : persisted_ok cfg (save_state ok w)).
  { apply (persisted_ok_transfer cfg w); try (destruct ok; reflexivity); [|exact Hp].
    left. destruct ok; reflexivity. }
  split; [exact Hp'|]. split.
  - intros k st. replace (PLAYER_NOTIFICATION_STATE (save_state ok w))
      with (PLAYER_NOTIFICATION_STATE w) by (destruct ok; reflexivity). apply He.
  - apply (file_ok_transfer cfg w); [apply save_state_file_cases|exact Hp'|exact Hf].
Qed.

Lemma invariant_boot cfg : invariant cfg (boot cfg NoFile).
Proof.
  split; [|split].
  - unfold persisted_ok. cbn.
    split; [reflexivity|]. split; [intros k u []|]. split; [discriminate|].
    split; [left; split; reflexivity|left; reflexivity].
  - intros k st H. cbn in H. rewrite lookup_empty in H. discriminate.
  - left. reflexivity.
Qed.

Lemma invariant_tick cfg env w :
  invariant cfg w -> invariant cfg (snd (fst (monitor_game_state env w))).
Proof.
  intros (Hp & He & Hf).
  pose proof (monitor_frame env w) as F. cbn zeta in F.
  destruct F as (F1 & F2 & _ & _ & F5 & F6 & _).
  destruct (monitor_last_file env w) as [Hl Hfile].
  assert (Hp' : persisted_ok cfg (snd (fst (monitor_game_state env w))))
    by (apply (persisted_ok_transfer cfg w); assumption).
  split; [exact Hp'|]. split.
  - intros k st Hk.
    destruct (monitor_entries env w) as [E|(g & raw & st' & _ & E & Ht & Hi)];
      rewrite E in Hk; [exact (He k st Hk)|].
    destruct (decide (upper raw = k)) as [<-|Hne].
    + rewrite lookup_insert_eq in Hk. inversion Hk; subst st'. split; [exact Ht|].
      destruct Hi as [Hi|(st0 & Hst0 & [Hi|[Hi Hlt]])].
      * rewrite Hi. lia.
      * rewrite Hi. apply (He _ _ Hst0).
      * rewrite Hi. lia.
    + rewrite lookup_insert_ne in Hk by exact Hne. exact (He k st Hk).
  - apply (file_ok_transfer cfg w); assumption.
Qed.

Lemma invariant_start cfg chat disk w :
  invariant cfg w -> invariant cfg (fst (start chat disk w)).
Proof.
  intros (Hp & He & Hf). unfold start. destruct chat as [c|]; [|exact (conj Hp (conj He Hf))].
  cbn [fst]. apply invariant_save; assumption.
Qed.

Lemma invariant_set_interval cfg args jobs disk w :
  invariant cfg w -> invariant cfg (fst (fst (set_interval_cmd args jobs disk w))).
Proof.
  intros (Hp & He & Hf). unfold set_interval_cmd.
  destruct args as [|a rest]; [exact (conj Hp (conj He Hf))|].
  destruct (isdigit a); [|exact (conj Hp (conj He Hf))].
  cbn [fst]. apply invariant_save; assumption.
Qed.

Lemma invariant_set_language cfg args disk w :
  invariant cfg w -> invariant cfg (fst (set_language_cmd args disk w)).
Proof.
  intros (Hp & He & Hf). unfold set_language_cmd.
  destruct args as [|a rest]; [exact (conj Hp (conj He Hf))|].
  destruct (String.eqb (lower a) "en" || String.eqb (lower a) "ua") eqn:E;
    [|exact (conj Hp (conj He Hf))].
  cbn [fst]. apply invariant_save; [|exact He|exact Hf].
  destruct Hp as (P1 & P2 & P3 & P4 & P5).
  unfold persisted_ok. globals_simpl.
  split; [exact P1|]. split; [exact P2|]. split; [exact P3|]. split; [exact P4|].
  right. apply orb_true_iff in E as [E|E]; apply String.eqb_eq in E; auto.
Qed.

Lemma invariant_pause cfg now1 now2 disk w :
  invariant cfg w -> invariant cfg (fst (pause_notifications now1 now2 disk w)).
Proof.
  intros (Hp & He & Hf). unfold pause_notifications. globals_simpl.
  destruct (negb (NOTIFY_PAUSED w)).
  - cbn [fst]. apply invariant_save; assumption.
  - destruct (LAST_TURN_PLAYER w) as [last|] eqn:Hlast;
      [|cbn [fst]; apply invariant_save; assumption].
    destruct (negb (String.eqb last "") && NOTIFY_PAUSED w);
      cbn [fst]; apply invariant_save; try assumption.
    intros k st Hk. globals_simpl.
    destruct (decide (last = k)) as [<-|Hne].
    + rewrite lookup_insert_eq in Hk. inversion Hk; subst.
      split; [eexists; reflexivity|cbn; lia].
    + rewrite lookup_insert_ne in Hk by exact Hne. exact (He k st Hk).
Qed.

Lemma in_dict_set {V} k u k0 (v : V) d :
  In (k, u) (dict_set k0 v d) -> (k = k0 /\ u = v) \/ In (k, u) d.
Proof.
  induction d as [|[k1 v1] d IH]; cbn.
  - intros [H|[]]. inversion H; subst. left. split; reflexivity.
  - destruct (String.eqb_spec k0 k1) as [->|Hne]; cbn.
    + intros [H|H]; [inversion H; subst; left; split; reflexivity|right; right; exact H].
    + intros [H|H]; [right; left; exact H|].
      destruct (IH H) as [E|E]; [left; exact E|right; right; exact E].
Qed.

Lemma in_dict_del {V} (x : string * V) k d : In x (dict_del k d) -> In x d.
Proof.
  induction d as [|[k1 v1] d IH]; cbn; [auto|].
  destruct (String.eqb k k1); cbn; [auto|].
  intros [H|H]; [left; exact H|right; exact (IH H)].
Qed.

Lemma invariant_chat cfg chat w :
  invariant cfg w ->
  invariant cfg (match chat with Some c => set_MAIN_CHAT_ID (Some c) w | None => w end).
Proof. intros H. destruct chat; exact H. Qed.

Lemma invariant_subscribe cfg chat args disk w :
  invariant cfg w -> invariant cfg (fst (subscribe chat args disk w)).
Proof.
  intros Hinv. apply (invariant_chat cfg chat) in Hinv. unfold subscribe.
  set (w0 := match chat with Some c => set_MAIN_CHAT_ID (Some c) w | None => w end) in *.
  clearbody w0.
  destruct (length args <? 2)%nat; [exact Hinv|].
  destruct (negb (String.prefix "@" (List.last args ""))) eqn:Hat; [exact Hinv|].
  destruct (List.find _ (AVAILABLE_NATIONS w0)) as [found|] eqn:Hfind; [|exact Hinv].
  destruct (String.eqb_spec found "") as [|Hne]; [exact Hinv|].
  destruct Hinv as ((P1 & P2 & P3 & P4 & P5) & He & Hf).
  cbn [fst]. apply invariant_save; [|exact He|exact Hf].
  unfold persisted_ok. globals_simpl.
  split; [apply unique_keys_set, P1|].
  split; [|split; [exact P3|split; [exact P4|exact P5]]].
  intros k u Hin. apply in_dict_set in Hin as [[-> ->]|Hin]; [|exact (P2 k u Hin)].
  split; [apply upper_nonempty, Hne|]. split; [apply upper_idempotent|].
  apply negb_false_iff in Hat. exact Hat.
Qed.

Lemma invariant_unsubscribe cfg args disk w :
  invariant cfg w -> invariant cfg (fst (unsubscribe args disk w)).
Proof.
  intros Hinv. unfold unsubscribe.
  destruct args as [|username rest]; [exact Hinv|].
  destruct (negb (String.prefix "@" username)); [exact Hinv|].
  destruct (List.find _ (PLAYER_LOGINS w)) as [[k v]|]; [|exact Hinv].
  destruct (String.eqb k ""); [exact Hinv|].
  destruct Hinv as ((P1 & P2 & P3 & P4 & P5) & He & Hf).
  cbn [fst]. apply invariant_save; [|exact He|exact Hf].
  unfold persisted_ok. globals_simpl.
  split; [apply unique_keys_del, P1|].
  split; [|split; [exact P3|split; [exact P4|exact P5]]].
  intros k' u Hin. apply in_dict_del in Hin. exact (P2 k' u Hin).
Qed.

Lemma invariant_etags cfg etags w :
  invariant cfg w -> invariant cfg (set_ETAG_CACHE etags w).
Proof. intros H. exact H. Qed.

Lemma invariant_set_game cfg chat args n disk w :
  invariant cfg w -> invariant cfg (fst (set_game cfg chat args n disk w)).
Proof.
  intros Hinv. apply (invariant_chat cfg chat) in Hinv. unfold set_game.
  set (w0 := match chat with Some c => set_MAIN_CHAT_ID (Some c) w | None => w end) in *.
  clearbody w0.
  destruct args as [|id rest]; [exact Hinv|].
  destruct (fetch_game_json (ETAG_CACHE w0) (BASE_URL cfg ++ id)%string n)
    as [[r etags'] req].
  destruct r as [[| |g]|e]; try exact Hinv.
  destruct (not_modified g); [exact Hinv|].
  destruct Hinv as ((P1 & P2 & P3 & P4 & P5) & He & Hf).
  cbn [fst].
  destruct (human_civs g) as [hc|e]; apply invariant_save; try exact Hf;
    try (intros k st Hk; globals_simpl; rewrite lookup_empty in Hk; discriminate);
    (unfold persisted_ok; globals_simpl;
     split; [reflexivity|]; split; [intros k u []|]; split; [discriminate|];
     split; [right; exists id; split; reflexivity|exact P5]).
Qed.

Lemma persisted_ok_same_fields cfg w w' :
  PLAYER_LOGINS w' = PLAYER_LOGINS w -> GAME_ID w' = GAME_ID w ->
  CURRENT_GAME_URL w' = CURRENT_GAME_URL w -> BOT_LANGUAGE w' = BOT_LANGUAGE w ->
  LAST_TURN_PLAYER w' = LAST_TURN_PLAYER w ->
  persisted_ok cfg w -> persisted_ok cfg w'.
Proof.
  intros Hl Hg Hu Hb Hlast. apply persisted_ok_transfer; try assumption. left. exact Hlast.
Qed.

Lemma invariant_restart cfg w ok w' :
  invariant cfg w -> restart cfg w = Some (ok, w') -> invariant cfg w'.
Proof.
  intros (_ & _ & Hf) Hre. unfold restart in Hre.
  destruct Hf as [Hfile|(w0 & Hfile & Hp0)]; rewrite Hfile in Hre.
  - cbn in Hre. inversion Hre; subst. apply invariant_boot.
  - change (boot cfg (JsonFile (payload w0)))
      with (set_STATE_FILE (JsonFile (payload w0)) (boot cfg NoFile)) in Hre.
    rewrite (load_after_save (boot cfg NoFile) w0) in Hre by apply Hp0.
    inversion Hre; subst. split; [|split].
    + apply (persisted_ok_same_fields cfg w0); try reflexivity. exact Hp0.
    + intros k st Hk. cbn in Hk. rewrite lookup_empty in Hk. discriminate.
    + right. exists w0. split; [reflexivity|exact Hp0].
Qed.

(** Every reachable state satisfies the invariant. *)
Lemma reachable_inv cfg w : reachable cfg w -> invariant cfg w.
Proof.
  induction 1.
  - apply invariant_boot.
  - eapply invariant_restart; eassumption.
  - apply invariant_tick; assumption.
  - apply invariant_start; assumption.
  - apply invariant_set_game; assumption.
  - apply invariant_set_interval; assumption.
  - apply invariant_set_language; assumption.
  - apply invariant_subscribe; assumption.
  - apply invariant_unsubscribe; assumption.
  - apply invariant_pause; assumption.
Qed.

(** X24.  Whatever ticks, commands and restarts a fresh install has gone
    through, the globals are well formed: subscription keys are unique,
    non-empty and normalized and every login starts with "@"; the last
    player, when known, is a non-empty normalized name; the URL is the base
    URL followed by the game id; every reminder entry holds a parsed
    last_reminded_time and an index of at most the length of the schedule;
    and the state file is absent or a snapshot written by [save_state] of
    globals that were well formed. *)
Theorem reachable_states_are_well_formed (cfg : Config) (w : World) :
  reachable cfg w -> invariant cfg w.
Proof.
  induction 1.
  - apply invariant_boot.
  - eapply invariant_restart; eassumption.
  - apply invariant_tick; assumption.
  - apply invariant_start; assumption.
  - apply invariant_set_game; assumption.
  - apply invariant_set_interval; assumption.
  - apply invariant_set_language; assumption.
  - apply invariant_subscribe; assumption.
  - apply invariant_unsubscribe; assumption.
  - apply invariant_pause; assumption.
Qed.

Lemma reachable_states_are_well_formed_witness :
  reachable demo_config demo_session /\ invariant demo_config demo_session.
Proof.
  assert (H : reachable demo_config demo_session).
  { unfold demo_session, demo_session_observed, demo_session_game.
    apply reach_subscribe, reach_tick, reach_set_game, reach_fresh. }
  split; [exact H|].
  exact (reachable_states_are_well_formed demo_config demo_session H).
Defined.

(** X25.  The state file is never left unreadable: from every reachable
    state a restart loads; [load_state] returns False exactly when there is
    no state file, and then the globals are those of the module body. *)
Theorem restart_always_loads (cfg : Config) (w : World) :
  reachable cfg w ->
  exists ok w', restart cfg w = Some (ok, w') /\
    (ok = false <-> STATE_FILE w = NoFile) /\
    (ok = false -> w' = boot cfg NoFile).
Proof.
  intros Hr. destruct (reachable_inv cfg w Hr) as (_ & _ & Hf).
  unfold restart.
  destruct Hf as [Hfile|(w0 & Hfile & Hp0)]; rewrite Hfile.
  - exists false, (boot cfg NoFile). split; [reflexivity|].
    split; [split; reflexivity|reflexivity].
  - change (boot cfg (JsonFile (payload w0)))
      with (set_STATE_FILE (JsonFile (payload w0)) (boot cfg NoFile)).
    rewrite (load_after_save (boot cfg NoFile) w0) by apply Hp0.
    eexists true, _. split; [reflexivity|].
    split; [split; discriminate|discriminate].
Qed.

Lemma restart_always_loads_witness :
  reachable demo_config demo_session /\
  exists ok w', restart demo_config demo_session = Some (ok, w') /\
    (ok = false <-> STATE_FILE demo_session = NoFile) /\
    (ok = false -> w' = boot demo_config NoFile).
Proof.
  assert (H : reachable demo_config demo_session).
  { unfold demo_session, demo_session_observed, demo_session_game.
    apply reach_subscribe, reach_tick, reach_set_game, reach_fresh. }
  split; [exact H|].
  exact (restart_always_loads demo_config demo_session H).
Defined.

Lemma check_reminder_sends_reminder env p chat st w e :
  e ∈ snd (check_reminder env p chat st w) ->
  exists login nations delay,
    e = send_message chat (reminder_text login nations p delay) (transport_ok env).
Proof.
  unfold check_reminder.
  destruct (last_reminded_time st); cbn beta iota zeta;
    try (cbn [snd]; intros H; apply elem_of_nil in H; contradiction);
    (destruct (REMINDER_SCHEDULE !! _);
       [|cbn [snd]; intros H; apply elem_of_nil in H; contradiction]);
    (destruct (_ <=? _);
       [|cbn [snd]; intros H; apply elem_of_nil in H; contradiction]);
    cbn [snd]; intros H; apply list_elem_of_singleton in H; subst e; eauto.
Qed.

Lemma reminder_text_delay login nations p delay :
  reminder_delay (reminder_text login nations p delay) = Some delay.
Proof. unfold reminder_text. destruct (truthy_str login); reflexivity. Qed.

(** X26.  In a reachable state a tick answered 304 Not Modified never
    announces a turn: the last player and the roster stay, and every
    message the tick sends is a reminder. *)
Theorem not_modified_tick_never_announces_turn
    (cfg : Config) (env : TickEnv) (w : World) (g : GameJson) (raw : string) :
  reachable cfg w ->
  tick_observes env w = Some (g, raw) -> not_modified g = true ->
  LAST_TURN_PLAYER (snd (fst (monitor_game_state env w))) = LAST_TURN_PLAYER w /\
  AVAILABLE_NATIONS (snd (fst (monitor_game_state env w))) = AVAILABLE_NATIONS w /\
  forall chat m ok,
    send_message chat m ok ∈ snd (monitor_game_state env w) ->
    exists delay, reminder_delay m = Some delay.
Proof.
  intros Hr Hobs Hnm.
  destruct (reachable_inv cfg w Hr) as ((_ & _ & P3 & _) & _ & _).
  destruct (tick_observes_inv _ _ _ _ Hobs) as (Hurl & data & etags' & h & Hf & Hd).
  assert (Hlast : LAST_TURN_PLAYER w = Some raw).
  { unfold observed_player in Hd. destruct data as [| |g']; try discriminate.
    destruct (not_modified g') eqn:Hn'.
    - destruct (LAST_TURN_PLAYER w) as [l|]; [|discriminate].
      destruct (String.eqb l ""); [discriminate|]. inversion Hd; subst. reflexivity.
    - destruct (currentPlayer g') as [c|]; [|discriminate].
      destruct (String.eqb c ""); [discriminate|]. inversion Hd; subst. congruence. }
  destruct (P3 raw Hlast) as [_ Hup].
  rewrite (monitor_fetched _ _ _ _ _ Hurl Hf). cbn [fst snd].
  assert (Hd' : observed_player (set_ETAG_CACHE etags' w) data = Some (g, raw)) by exact Hd.
  rewrite (handle_data_observed _ _ _ _ _ Hd').
  world_simpl. rewrite Hlast, Hup, String.eqb_refl. cbn [negb].
  assert (Hnone : forall chat m ok,
            send_message chat m ok ∈ [http_get (default "" (CURRENT_GAME_URL w)) h] ++ [] ->
            exists delay, reminder_delay m = Some delay).
  { intros chat m ok H. apply list_elem_of_singleton in H. discriminate. }
  destruct (PLAYER_NOTIFICATION_STATE w !! raw) as [st|];
    [|split; [exact Hlast|split; [reflexivity|exact Hnone]]].
  destruct (MAIN_CHAT_ID w) as [chat|];
    [|split; [exact Hlast|split; [reflexivity|exact Hnone]]].
  destruct (negb (chat =? 0) && negb (NOTIFY_PAUSED w));
    [|split; [exact Hlast|split; [reflexivity|exact Hnone]]].
  split; [|split].
  - rewrite (proj1 (check_reminder_last_file env raw chat st (set_ETAG_CACHE etags' w))).
    exact Hlast.
  - apply (check_reminder_keeps_roster env raw chat st (set_ETAG_CACHE etags' w)).
  - intros c m ok H. apply elem_of_app in H as [H|H].
    + apply list_elem_of_singleton in H. discriminate.
    + apply check_reminder_sends_reminder in H as (login & nations & delay & He).
      inversion He; subst. exists delay. apply reminder_text_delay.
Qed.

Lemma not_modified_tick_never_announces_turn_witness :
  let env := tick_at 700 (response 304 None (body_json DocNull)) in
  let g := {| not_modified := true; currentPlayer := None;
              currentTurnStartTime := None; civilizations := civs_missing |} in
  reachable demo_config demo_session /\
  tick_observes env demo_session = Some (g, "ROME") /\
  not_modified g = true /\
  LAST_TURN_PLAYER (snd (fst (monitor_game_state env demo_session)))
  = LAST_TURN_PLAYER demo_session /\
  AVAILABLE_NATIONS (snd (fst (monitor_game_state env demo_session)))
  = AVAILABLE_NATIONS demo_session /\
  forall chat m ok,
    send_message chat m ok ∈ snd (monitor_game_state env demo_session) ->
    exists delay, reminder_delay m = Some delay.
Proof.
  intros env g.
  assert (H : reachable demo_config demo_session).
  { unfold demo_session, demo_session_observed, demo_session_game.
    apply reach_subscribe, reach_tick, reach_set_game, reach_fresh. }
  assert (Hobs : tick_observes env demo_session = Some (g, "ROME"))
    by (vm_compute; reflexivity).
  split; [exact H|]. split; [exact Hobs|]. split; [reflexivity|].
  exact (not_modified_tick_never_announces_turn demo_config env demo_session g "ROME"
           H Hobs eq_refl).
Defined.
